(** * TownPass identity-request engine: a shallow embedding of
      [src/hooks/useTownPassAuth.ts], of the effects and the status line of
      the component that uses it, [src/examples/TownPassDemo.tsx], and the
      properties of its specification.

    The hook is a TypeScript/React module working on dynamically typed
    JavaScript values, on listener tables of the [window] object and of the
    bridge objects a host may expose, on one timer and on four pieces of React
    state.  The embedding follows the source statement by statement:

    - JavaScript data values are the inductive [JsVal]; truthiness, [typeof],
      [===] against a string literal, [??], [?.] and plain property access
      (which throws on [null] and [undefined]) are written out;
    - statements run in the monad [M]: explicit state passing over [World],
      JavaScript exceptions as [Throw], and a list of observable [Event]s
      (listener registrations, timers, probes, state setters, decode attempts)
      in program order;
    - what the host exposes (bridge objects, their methods, whether a method
      throws) and the built-ins [JSON.parse], [JSON.stringify] and [fetch] are
      the fields of an environment [Env], over which every statement is
      universally quantified.  *)

From Stdlib Require Import String Ascii List Bool ZArith Lia.
From Stdlib Require Import DecimalString.
Import ListNotations.
Set Warnings "-register-all".
Local Open Scope string_scope.
Local Open Scope list_scope.

(* ===================================================================== *)
(** * JavaScript values *)
(* ===================================================================== *)

(** The values that travel over the transports: JSON-like data plus
    [undefined].  An object is its list of own properties, the first binding
    of a key being the property's value.  A number is an integer: the hook
    only ever tests a number for truthiness. *)
Inductive JsVal : Type :=
| JUndefined
| JNull
| JBool (b : bool)
| JNum (n : Z)
| JStr (s : string)
| JArr (items : list JsVal)
| JObj (fields : list (string * JsVal)).

(** [ToBoolean]. *)
Definition truthy (v : JsVal) : bool :=
  match v with
  | JUndefined | JNull => false
  | JBool b => b
  | JNum n => negb (n =? 0)%Z
  | JStr s => negb (s =? "")
  | JArr _ | JObj _ => true
  end.

(** [v === null || v === undefined], the test behind [??] and [?.]. *)
Definition nullish (v : JsVal) : bool :=
  match v with
  | JUndefined | JNull => true
  | _ => false
  end.

Definition is_null (v : JsVal) : bool :=
  match v with JNull => true | _ => false end.

Inductive JsType := TUndefined | TObject | TBoolean | TNumber | TString.

(** [typeof v]; [typeof null] is ["object"], and so is an array's. *)
Definition typeof (v : JsVal) : JsType :=
  match v with
  | JUndefined => TUndefined
  | JNull => TObject
  | JBool _ => TBoolean
  | JNum _ => TNumber
  | JStr _ => TString
  | JArr _ | JObj _ => TObject
  end.

Definition is_string (v : JsVal) : bool :=
  match typeof v with TString => true | _ => false end.
Definition is_object (v : JsVal) : bool :=
  match typeof v with TObject => true | _ => false end.

(** [v === "lit"]. *)
Definition str_is (v : JsVal) (lit : string) : bool :=
  match v with
  | JStr s => s =? lit
  | _ => false
  end.

(** [a ?? b]. *)
Definition coalesce (a b : JsVal) : JsVal := if nullish a then b else a.

Fixpoint lookup (k : string) (fs : list (string * JsVal)) : JsVal :=
  match fs with
  | [] => JUndefined
  | (k', v) :: rest => if k' =? k then v else lookup k rest
  end.

(** [v?.k].  The hook only reads the keys [source], [type], [payload],
    [user], [townpass_user], [id], [name], [data] and [detail]; none of them
    is a property of a primitive or of an array, where the read gives
    [undefined]. *)
Definition opt_get (v : JsVal) (k : string) : JsVal :=
  match v with
  | JObj fs => lookup k fs
  | _ => JUndefined
  end.

(** JavaScript exceptions are [Error] instances; only the message is ever
    read. *)
Inductive Exn := JsError (message : string).

Definition exn_message (e : Exn) : string :=
  match e with JsError m => m end.

Inductive Result (A : Type) : Type :=
| Ok (a : A)
| Throw (e : Exn).
Arguments Ok {A} a.
Arguments Throw {A} e.

(** [v.k]: a [TypeError] on [null] and [undefined]. *)
Definition get (v : JsVal) (k : string) : Result JsVal :=
  match v with
  | JUndefined | JNull => Throw (JsError "TypeError: cannot read properties")
  | _ => Ok (opt_get v k)
  end.

(* ===================================================================== *)
(** * The host, the world and the observable events *)
(* ===================================================================== *)

(** The closures one call of [requestTownPassUser] creates. *)
Inductive HandlerKind :=
| GenericListener | CustomListener | OnTownPassUser | FlutterHandler
| ChannelHandler.

(** A function value: a closure of the engine, identified by the call that
    created it, or a function of the host. *)
Inductive Handler :=
| EngineFn (call : nat) (k : HandlerKind)
| HostFn (id : nat).

Definition kind_eqb (a b : HandlerKind) : bool :=
  match a, b with
  | GenericListener, GenericListener
  | CustomListener, CustomListener
  | OnTownPassUser, OnTownPassUser
  | FlutterHandler, FlutterHandler
  | ChannelHandler, ChannelHandler => true
  | _, _ => false
  end.

(** [f === g] on function values. *)
Definition handler_eqb (a b : Handler) : bool :=
  match a, b with
  | EngineFn c k, EngineFn c' k' => Nat.eqb c c' && kind_eqb k k'
  | HostFn i, HostFn j => Nat.eqb i j
  | _, _ => false
  end.

(** The property [window.__onTownPassUser]. *)
Inductive Slot :=
| SlotAbsent
| SlotFn (h : Handler)
| SlotValue (v : JsVal).

(** A host method that receives a message: [true] when the call throws. *)
Definition Sink := JsVal -> bool.

(** [window.flutterObject] and [window.townpass_message_channel]. *)
Record BridgeCaps := {
  has_addEventListener : bool;
  has_removeEventListener : bool;
  postMessage : option Sink
}.

(** [window.TownPass]. *)
Record TownPassCaps := {
  tp_postMessage : option Sink;
  tp_getUser : option (Result JsVal)
}.

(** What the host exposes on [window] when a request runs. *)
Record Host := {
  flutterObject : option BridgeCaps;
  townpass_message_channel : option BridgeCaps;
  webkit_TownPass : option Sink;
  ReactNativeWebView_postMessage : option Sink;
  TownPass : option TownPassCaps
}.

(** The hook's options, each optional. *)
Record Options := {
  opt_debug : option bool;
  opt_timeout : option Z;
  opt_authEndpoint : option string
}.

Record Request := {
  req_url : string;
  req_method : string;
  req_headers : list (string * string);
  req_credentials : string;
  req_body : string
}.

(** A response of the backend: its status and its body ([None] when reading
    the body fails). *)
Record Response := {
  res_status : Z;
  res_body : option string
}.

Inductive FetchOutcome :=
| Rejected (e : Exn)
| Responded (r : Response).

Record Env := {
  JSON_parse : string -> option JsVal;
  JSON_stringify : JsVal -> string;
  fetch : Request -> FetchOutcome;
  host : Host;
  opts : option Options
}.

Inductive Target :=
| WindowMessage | WindowTownpassUser | CallbackSlot | FlutterObject
| MessageChannel.

Inductive Probe :=
| ProbeFlutter | ProbeChannel | ProbeWebkit | ProbeReactNative
| ProbeTownPass | ProbeWindow | ProbeGetUser.

Inductive Event :=
| EvLog (msg : string)
| EvJsonParse (s : string)
| EvSetUser (v : JsVal)
| EvSetIsLoading (b : bool)
| EvSetError (e : option string)
| EvSetIsAuthenticated (b : bool)
| EvAttach (t : Target) (h : Handler)
| EvDetach (t : Target) (h : Handler)
| EvSetTimeout (id : nat) (ms : Z)
| EvClearTimeout (id : nat)
| EvProbe (p : Probe) (msg : JsVal)
| EvFetch (r : Request).

(** The mutable state: the React state of the hook, its four refs, and the
    part of [window] the hook writes. *)
Record World := {
  user : JsVal;
  isLoading : bool;
  error : option string;
  isAuthenticated : bool;
  timerRef : option nat;
  listenerRef : option Handler;
  channelListenerRef : option Handler;
  cleanedRef : bool;
  message_listeners : list Handler;
  townpass_user_listeners : list Handler;
  onTownPassUser : Slot;
  flutter_listeners : list Handler;
  flutter_onmessage : option Handler;
  channel_listeners : list Handler;
  channel_onmessage : option Handler;
  timers : list (nat * Z);
  timer_seq : nat;
  call_seq : nat
}.

Definition set_user v w := {|
  user := v; isLoading := isLoading w; error := error w;
  isAuthenticated := isAuthenticated w; timerRef := timerRef w;
  listenerRef := listenerRef w; channelListenerRef := channelListenerRef w;
  cleanedRef := cleanedRef w; message_listeners := message_listeners w;
  townpass_user_listeners := townpass_user_listeners w;
  onTownPassUser := onTownPassUser w; flutter_listeners := flutter_listeners w;
  flutter_onmessage := flutter_onmessage w;
  channel_listeners := channel_listeners w;
  channel_onmessage := channel_onmessage w; timers := timers w;
  timer_seq := timer_seq w; call_seq := call_seq w |}.

Definition set_isLoading v w := {|
  user := user w; isLoading := v; error := error w;
  isAuthenticated := isAuthenticated w; timerRef := timerRef w;
  listenerRef := listenerRef w; channelListenerRef := channelListenerRef w;
  cleanedRef := cleanedRef w; message_listeners := message_listeners w;
  townpass_user_listeners := townpass_user_listeners w;
  onTownPassUser := onTownPassUser w; flutter_listeners := flutter_listeners w;
  flutter_onmessage := flutter_onmessage w;
  channel_listeners := channel_listeners w;
  channel_onmessage := channel_onmessage w; timers := timers w;
  timer_seq := timer_seq w; call_seq := call_seq w |}.

Definition set_error v w := {|
  user := user w; isLoading := isLoading w; error := v;
  isAuthenticated := isAuthenticated w; timerRef := timerRef w;
  listenerRef := listenerRef w; channelListenerRef := channelListenerRef w;
  cleanedRef := cleanedRef w; message_listeners := message_listeners w;
  townpass_user_listeners := townpass_user_listeners w;
  onTownPassUser := onTownPassUser w; flutter_listeners := flutter_listeners w;
  flutter_onmessage := flutter_onmessage w;
  channel_listeners := channel_listeners w;
  channel_onmessage := channel_onmessage w; timers := timers w;
  timer_seq := timer_seq w; call_seq := call_seq w |}.

Definition set_isAuthenticated v w := {|
  user := user w; isLoading := isLoading w; error := error w;
  isAuthenticated := v; timerRef := timerRef w;
  listenerRef := listenerRef w; channelListenerRef := channelListenerRef w;
  cleanedRef := cleanedRef w; message_listeners := message_listeners w;
  townpass_user_listeners := townpass_user_listeners w;
  onTownPassUser := onTownPassUser w; flutter_listeners := flutter_listeners w;
  flutter_onmessage := flutter_onmessage w;
  channel_listeners := channel_listeners w;
  channel_onmessage := channel_onmessage w; timers := timers w;
  timer_seq := timer_seq w; call_seq := call_seq w |}.

Definition set_timerRef v w := {|
  user := user w; isLoading := isLoading w; error := error w;
  isAuthenticated := isAuthenticated w; timerRef := v;
  listenerRef := listenerRef w; channelListenerRef := channelListenerRef w;
  cleanedRef := cleanedRef w; message_listeners := message_listeners w;
  townpass_user_listeners := townpass_user_listeners w;
  onTownPassUser := onTownPassUser w; flutter_listeners := flutter_listeners w;
  flutter_onmessage := flutter_onmessage w;
  channel_listeners := channel_listeners w;
  channel_onmessage := channel_onmessage w; timers := timers w;
  timer_seq := timer_seq w; call_seq := call_seq w |}.

Definition set_listenerRef v w := {|
  user := user w; isLoading := isLoading w; error := error w;
  isAuthenticated := isAuthenticated w; timerRef := timerRef w;
  listenerRef := v; channelListenerRef := channelListenerRef w;
  cleanedRef := cleanedRef w; message_listeners := message_listeners w;
  townpass_user_listeners := townpass_user_listeners w;
  onTownPassUser := onTownPassUser w; flutter_listeners := flutter_listeners w;
  flutter_onmessage := flutter_onmessage w;
  channel_listeners := channel_listeners w;
  channel_onmessage := channel_onmessage w; timers := timers w;
  timer_seq := timer_seq w; call_seq := call_seq w |}.

Definition set_channelListenerRef v w := {|
  user := user w; isLoading := isLoading w; error := error w;
  isAuthenticated := isAuthenticated w; timerRef := timerRef w;
  listenerRef := listenerRef w; channelListenerRef := v;
  cleanedRef := cleanedRef w; message_listeners := message_listeners w;
  townpass_user_listeners := townpass_user_listeners w;
  onTownPassUser := onTownPassUser w; flutter_listeners := flutter_listeners w;
  flutter_onmessage := flutter_onmessage w;
  channel_listeners := channel_listeners w;
  channel_onmessage := channel_onmessage w; timers := timers w;
  timer_seq := timer_seq w; call_seq := call_seq w |}.

Definition set_cleanedRef v w := {|
  user := user w; isLoading := isLoading w; error := error w;
  isAuthenticated := isAuthenticated w; timerRef := timerRef w;
  listenerRef := listenerRef w; channelListenerRef := channelListenerRef w;
  cleanedRef := v; message_listeners := message_listeners w;
  townpass_user_listeners := townpass_user_listeners w;
  onTownPassUser := onTownPassUser w; flutter_listeners := flutter_listeners w;
  flutter_onmessage := flutter_onmessage w;
  channel_listeners := channel_listeners w;
  channel_onmessage := channel_onmessage w; timers := timers w;
  timer_seq := timer_seq w; call_seq := call_seq w |}.

Definition set_message_listeners v w := {|
  user := user w; isLoading := isLoading w; error := error w;
  isAuthenticated := isAuthenticated w; timerRef := timerRef w;
  listenerRef := listenerRef w; channelListenerRef := channelListenerRef w;
  cleanedRef := cleanedRef w; message_listeners := v;
  townpass_user_listeners := townpass_user_listeners w;
  onTownPassUser := onTownPassUser w; flutter_listeners := flutter_listeners w;
  flutter_onmessage := flutter_onmessage w;
  channel_listeners := channel_listeners w;
  channel_onmessage := channel_onmessage w; timers := timers w;
  timer_seq := timer_seq w; call_seq := call_seq w |}.

Definition set_townpass_user_listeners v w := {|
  user := user w; isLoading := isLoading w; error := error w;
  isAuthenticated := isAuthenticated w; timerRef := timerRef w;
  listenerRef := listenerRef w; channelListenerRef := channelListenerRef w;
  cleanedRef := cleanedRef w; message_listeners := message_listeners w;
  townpass_user_listeners := v;
  onTownPassUser := onTownPassUser w; flutter_listeners := flutter_listeners w;
  flutter_onmessage := flutter_onmessage w;
  channel_listeners := channel_listeners w;
  channel_onmessage := channel_onmessage w; timers := timers w;
  timer_seq := timer_seq w; call_seq := call_seq w |}.

Definition set_onTownPassUser v w := {|
  user := user w; isLoading := isLoading w; error := error w;
  isAuthenticated := isAuthenticated w; timerRef := timerRef w;
  listenerRef := listenerRef w; channelListenerRef := channelListenerRef w;
  cleanedRef := cleanedRef w; message_listeners := message_listeners w;
  townpass_user_listeners := townpass_user_listeners w;
  onTownPassUser := v; flutter_listeners := flutter_listeners w;
  flutter_onmessage := flutter_onmessage w;
  channel_listeners := channel_listeners w;
  channel_onmessage := channel_onmessage w; timers := timers w;
  timer_seq := timer_seq w; call_seq := call_seq w |}.

Definition set_flutter_listeners v w := {|
  user := user w; isLoading := isLoading w; error := error w;
  isAuthenticated := isAuthenticated w; timerRef := timerRef w;
  listenerRef := listenerRef w; channelListenerRef := channelListenerRef w;
  cleanedRef := cleanedRef w; message_listeners := message_listeners w;
  townpass_user_listeners := townpass_user_listeners w;
  onTownPassUser := onTownPassUser w; flutter_listeners := v;
  flutter_onmessage := flutter_onmessage w;
  channel_listeners := channel_listeners w;
  channel_onmessage := channel_onmessage w; timers := timers w;
  timer_seq := timer_seq w; call_seq := call_seq w |}.

Definition set_flutter_onmessage v w := {|
  user := user w; isLoading := isLoading w; error := error w;
  isAuthenticated := isAuthenticated w; timerRef := timerRef w;
  listenerRef := listenerRef w; channelListenerRef := channelListenerRef w;
  cleanedRef := cleanedRef w; message_listeners := message_listeners w;
  townpass_user_listeners := townpass_user_listeners w;
  onTownPassUser := onTownPassUser w; flutter_listeners := flutter_listeners w;
  flutter_onmessage := v;
  channel_listeners := channel_listeners w;
  channel_onmessage := channel_onmessage w; timers := timers w;
  timer_seq := timer_seq w; call_seq := call_seq w |}.

Definition set_channel_listeners v w := {|
  user := user w; isLoading := isLoading w; error := error w;
  isAuthenticated := isAuthenticated w; timerRef := timerRef w;
  listenerRef := listenerRef w; channelListenerRef := channelListenerRef w;
  cleanedRef := cleanedRef w; message_listeners := message_listeners w;
  townpass_user_listeners := townpass_user_listeners w;
  onTownPassUser := onTownPassUser w; flutter_listeners := flutter_listeners w;
  flutter_onmessage := flutter_onmessage w;
  channel_listeners := v;
  channel_onmessage := channel_onmessage w; timers := timers w;
  timer_seq := timer_seq w; call_seq := call_seq w |}.

Definition set_channel_onmessage v w := {|
  user := user w; isLoading := isLoading w; error := error w;
  isAuthenticated := isAuthenticated w; timerRef := timerRef w;
  listenerRef := listenerRef w; channelListenerRef := channelListenerRef w;
  cleanedRef := cleanedRef w; message_listeners := message_listeners w;
  townpass_user_listeners := townpass_user_listeners w;
  onTownPassUser := onTownPassUser w; flutter_listeners := flutter_listeners w;
  flutter_onmessage := flutter_onmessage w;
  channel_listeners := channel_listeners w;
  channel_onmessage := v; timers := timers w;
  timer_seq := timer_seq w; call_seq := call_seq w |}.

Definition set_timers v w := {|
  user := user w; isLoading := isLoading w; error := error w;
  isAuthenticated := isAuthenticated w; timerRef := timerRef w;
  listenerRef := listenerRef w; channelListenerRef := channelListenerRef w;
  cleanedRef := cleanedRef w; message_listeners := message_listeners w;
  townpass_user_listeners := townpass_user_listeners w;
  onTownPassUser := onTownPassUser w; flutter_listeners := flutter_listeners w;
  flutter_onmessage := flutter_onmessage w;
  channel_listeners := channel_listeners w;
  channel_onmessage := channel_onmessage w; timers := v;
  timer_seq := timer_seq w; call_seq := call_seq w |}.

Definition set_timer_seq v w := {|
  user := user w; isLoading := isLoading w; error := error w;
  isAuthenticated := isAuthenticated w; timerRef := timerRef w;
  listenerRef := listenerRef w; channelListenerRef := channelListenerRef w;
  cleanedRef := cleanedRef w; message_listeners := message_listeners w;
  townpass_user_listeners := townpass_user_listeners w;
  onTownPassUser := onTownPassUser w; flutter_listeners := flutter_listeners w;
  flutter_onmessage := flutter_onmessage w;
  channel_listeners := channel_listeners w;
  channel_onmessage := channel_onmessage w; timers := timers w;
  timer_seq := v; call_seq := call_seq w |}.

Definition set_call_seq v w := {|
  user := user w; isLoading := isLoading w; error := error w;
  isAuthenticated := isAuthenticated w; timerRef := timerRef w;
  listenerRef := listenerRef w; channelListenerRef := channelListenerRef w;
  cleanedRef := cleanedRef w; message_listeners := message_listeners w;
  townpass_user_listeners := townpass_user_listeners w;
  onTownPassUser := onTownPassUser w; flutter_listeners := flutter_listeners w;
  flutter_onmessage := flutter_onmessage w;
  channel_listeners := channel_listeners w;
  channel_onmessage := channel_onmessage w; timers := timers w;
  timer_seq := timer_seq w; call_seq := v |}.

(** The world of a freshly mounted hook in a window nobody has touched:
    [useState] and [useRef] initial values, no listener, no timer. *)
Definition initial_world : World := {|
  user := JNull; isLoading := false; error := None; isAuthenticated := false;
  timerRef := None; listenerRef := None; channelListenerRef := None;
  cleanedRef := false;
  message_listeners := []; townpass_user_listeners := [];
  onTownPassUser := SlotAbsent;
  flutter_listeners := []; flutter_onmessage := None;
  channel_listeners := []; channel_onmessage := None;
  timers := []; timer_seq := 0; call_seq := 0 |}.

(* ===================================================================== *)
(** * The monad of statements *)
(* ===================================================================== *)

(** A statement maps a world to its result (a value or a thrown exception),
    the next world and the events it produced, in order. *)
Definition M (A : Type) : Type := World -> Result A * World * list Event.

Definition ret {A} (a : A) : M A := fun w => (Ok a, w, []).

Definition throw {A} (e : Exn) : M A := fun w => (Throw e, w, []).

Definition bind {A B} (m : M A) (f : A -> M B) : M B :=
  fun w =>
    match m w with
    | (Ok a, w1, l1) =>
        match f a w1 with
        | (r, w2, l2) => (r, w2, l1 ++ l2)
        end
    | (Throw e, w1, l1) => (Throw e, w1, l1)
    end.

(** [try { m } catch (e) { h e }]. *)
Definition try_catch {A} (m : M A) (h : Exn -> M A) : M A :=
  fun w =>
    match m w with
    | (Ok a, w1, l1) => (Ok a, w1, l1)
    | (Throw e, w1, l1) =>
        match h e w1 with
        | (r, w2, l2) => (r, w2, l1 ++ l2)
        end
    end.

Definition emit (e : Event) : M unit := fun w => (Ok tt, w, [e]).
Definition gets {A} (f : World -> A) : M A := fun w => (Ok (f w), w, []).
Definition modify (f : World -> World) : M unit := fun w => (Ok tt, f w, []).
Definition lift {A} (r : Result A) : M A := fun w => (r, w, []).

Declare Scope js_scope.
Delimit Scope js_scope with js.
Notation "x <- m ;; k" := (bind m (fun x => k))
  (at level 61, m at next level, right associativity) : js_scope.
Notation "m ;; k" := (bind m (fun _ => k))
  (at level 61, right associativity) : js_scope.
Local Open Scope js_scope.

Definition result_of {A} (o : Result A * World * list Event) : Result A :=
  fst (fst o).
Definition world_of {A} (o : Result A * World * list Event) : World :=
  snd (fst o).
Definition events_of {A} (o : Result A * World * list Event) : list Event :=
  snd o.

(** A statement sequence that may [return] early: [Some v] once a [return v]
    has run, [None] when control falls off its end. *)
Definition Stmt := M (option JsVal).

Definition seq_stmt (s1 s2 : Stmt) : Stmt :=
  x <- s1 ;;
  match x with
  | Some v => ret (Some v)
  | None => s2
  end.

(** [if (c) return r;] *)
Definition if_return (c : M bool) (r : M JsVal) : Stmt :=
  b <- c ;;
  if b then (v <- r ;; ret (Some v)) else ret None.

(** A function body: the statements, then [return last] at its end. *)
Definition body (s : Stmt) (last : JsVal) : M JsVal :=
  x <- s ;;
  match x with
  | Some v => ret v
  | None => ret last
  end.

Notation "s1 ;;; s2" := (seq_stmt s1 s2)
  (at level 62, right associativity) : js_scope.

(** [a && b] where [b] is only evaluated when [a] holds. *)
Definition and_then (a : bool) (b : M bool) : M bool :=
  if a then b else ret false.

(* ===================================================================== *)
(** * The hook *)
(* ===================================================================== *)

Definition MessageEvent (data : JsVal) : JsVal := JObj [("data", data)].
Definition CustomEvent (detail : JsVal) : JsVal := JObj [("detail", detail)].

(** The handlers attached to a target: registered listeners, then the
    handler in the target's single assignable slot. *)
Definition attached (t : Target) (w : World) : list Handler :=
  match t with
  | WindowMessage => message_listeners w
  | WindowTownpassUser => townpass_user_listeners w
  | CallbackSlot =>
      match onTownPassUser w with SlotFn h => [h] | _ => [] end
  | FlutterObject =>
      flutter_listeners w ++
      match flutter_onmessage w with Some h => [h] | None => [] end
  | MessageChannel =>
      channel_listeners w ++
      match channel_onmessage w with Some h => [h] | None => [] end
  end.

Definition is_attached (t : Target) (h : Handler) (w : World) : bool :=
  existsb (handler_eqb h) (attached t w).

Definition add_listener (h : Handler) (l : list Handler) : list Handler :=
  if existsb (handler_eqb h) l then l else l ++ [h].

Definition remove_listener (h : Handler) (l : list Handler) : list Handler :=
  filter (fun x => negb (handler_eqb x h)) l.

Definition opt_handler_eqb (a : option Handler) (h : Handler) : bool :=
  match a with Some x => handler_eqb x h | None => false end.

Definition res_ok (r : Response) : bool :=
  ((200 <=? res_status r) && (res_status r <=? 299))%Z.

(** [`${n}`] for an integer. *)
Definition number_to_string (n : Z) : string :=
  NilZero.string_of_int (Z.to_int n).

Section Hook.

Variable E : Env.

(** [opts?.debug ?? false], [opts?.timeout ?? 3000] and
    [opts?.authEndpoint ?? "/api/auth/townpass"]. *)
Definition debug : bool :=
  match opts E with
  | Some o => match opt_debug o with Some b => b | None => false end
  | None => false
  end.

Definition timeoutMs : Z :=
  match opts E with
  | Some o => match opt_timeout o with Some t => t | None => 3000%Z end
  | None => 3000%Z
  end.

Definition authEndpoint : string :=
  match opts E with
  | Some o =>
      match opt_authEndpoint o with
      | Some s => s
      | None => "/api/auth/townpass"
      end
  | None => "/api/auth/townpass"
  end.

(** [log(msg, ...)]: a [console.debug] line when [debug] is on. *)
Definition log (msg : string) : M unit :=
  if debug then emit (EvLog msg) else ret tt.

(** A call of [JSON.parse]: the attempt is observable, a syntax error is
    thrown. *)
Definition JSON_parse_call (s : string) : M JsVal :=
  emit (EvJsonParse s) ;;
  match JSON_parse E s with
  | Some v => ret v
  | None => throw (JsError "SyntaxError")
  end.

Definition tryParse (s : string) : M JsVal :=
  try_catch (JSON_parse_call s) (fun _ => ret JNull).

(** The statements of [parseIncoming] after the decode step, from the comment
    [Known shapes (try in order)] to the final [return null]. *)
Definition knownShapes (payload : JsVal) : M JsVal :=
  body
    ((* { source: 'townpass', type: 'user', payload: {...} } *)
     if_return
       (ret (str_is (opt_get payload "source") "townpass" &&
             (str_is (opt_get payload "type") "user" ||
              str_is (opt_get payload "type") "user_info")))
       (p <- lift (get payload "payload") ;;
        if nullish p
        then (u <- lift (get payload "user") ;; ret (coalesce u JNull))
        else ret p) ;;;
     (* { type: 'townpass:user', user: {...} } *)
     if_return
       (ret (str_is (opt_get payload "type") "townpass:user" &&
             truthy (opt_get payload "user")))
       (lift (get payload "user")) ;;;
     (* { type: 'TOWNPASS_USER', user: {...} } *)
     if_return
       (ret ((str_is (opt_get payload "type") "TOWNPASS_USER" ||
              str_is (opt_get payload "type") "TOWNPASS_USER_INFO") &&
             truthy (opt_get payload "user")))
       (lift (get payload "user")) ;;;
     (* { townpass_user: {...} } *)
     if_return
       (ret (truthy (opt_get payload "townpass_user")))
       (lift (get payload "townpass_user")) ;;;
     (* { user: {...} } *)
     if_return
       (and_then (truthy (opt_get payload "user"))
          (u <- lift (get payload "user") ;;
           and_then (is_object u)
             (i <- lift (get u "id") ;; ret (truthy i))))
       (lift (get payload "user")) ;;;
     (* { name: 'userinfo', data: JSON.stringify({...}) } or data: {...} *)
     (if str_is (opt_get payload "name") "userinfo"
      then
        d <- lift (get payload "data") ;;
        match d with
        | JStr s => p <- tryParse s ;; ret (Some (coalesce p JNull))
        | _ => if_return (ret (is_object d)) (ret d)
        end
      else ret None) ;;;
     (* CustomEvent detail: { detail: { user: {...} } } *)
     if_return
       (and_then (truthy (opt_get payload "detail"))
          (d <- lift (get payload "detail") ;;
           u <- lift (get d "user") ;;
           if truthy u then ret true
           else (t <- lift (get d "townpass_user") ;; ret (truthy t))))
       (d <- lift (get payload "detail") ;;
        u <- lift (get d "user") ;;
        if nullish u
        then (d' <- lift (get payload "detail") ;; lift (get d' "townpass_user"))
        else ret u) ;;;
     (* raw looks like user object (has id) *)
     if_return
       (and_then (is_object payload)
          (i <- lift (get payload "id") ;; ret (truthy i)))
       (ret payload))
    JNull.

Definition parseIncoming (raw : JsVal) : M JsVal :=
  if negb (truthy raw) then ret JNull
  else
    payload <- match raw with
               | JStr s =>
                   maybe <- tryParse s ;;
                   ret (if is_null maybe then raw else maybe)
               | _ => ret raw
               end ;;
    knownShapes payload.

(** The React setters. *)
Definition setUser (v : JsVal) : M unit :=
  emit (EvSetUser v) ;; modify (set_user v).
Definition setIsLoading (b : bool) : M unit :=
  emit (EvSetIsLoading b) ;; modify (set_isLoading b).
Definition setError (e : option string) : M unit :=
  emit (EvSetError e) ;; modify (set_error e).
Definition setIsAuthenticated (b : bool) : M unit :=
  emit (EvSetIsAuthenticated b) ;; modify (set_isAuthenticated b).

(** [window.clearTimeout], [window.setTimeout] (timer ids are positive),
    [addEventListener] and [removeEventListener] of [window] and of a bridge
    object (whose listener API, when the host provides it, registers and
    removes listeners as an event target does).  The callback slot is not an
    event target. *)
Definition clearTimeout (id : nat) : M unit :=
  emit (EvClearTimeout id) ;;
  modify (fun w =>
    set_timers (filter (fun t => negb (Nat.eqb (fst t) id)) (timers w)) w).

Definition setTimeout (ms : Z) : M nat :=
  n <- gets timer_seq ;;
  modify (fun w => set_timers (timers w ++ [(S n, ms)]) (set_timer_seq (S n) w)) ;;
  emit (EvSetTimeout (S n) ms) ;;
  ret (S n).

Definition addEventListener (t : Target) (h : Handler) : M unit :=
  emit (EvAttach t h) ;;
  modify (fun w =>
    match t with
    | WindowMessage =>
        set_message_listeners (add_listener h (message_listeners w)) w
    | WindowTownpassUser =>
        set_townpass_user_listeners
          (add_listener h (townpass_user_listeners w)) w
    | FlutterObject =>
        set_flutter_listeners (add_listener h (flutter_listeners w)) w
    | MessageChannel =>
        set_channel_listeners (add_listener h (channel_listeners w)) w
    | CallbackSlot => w
    end).

Definition removeEventListener (t : Target) (h : Handler) : M unit :=
  emit (EvDetach t h) ;;
  modify (fun w =>
    match t with
    | WindowMessage =>
        set_message_listeners (remove_listener h (message_listeners w)) w
    | WindowTownpassUser =>
        set_townpass_user_listeners
          (remove_listener h (townpass_user_listeners w)) w
    | FlutterObject =>
        set_flutter_listeners (remove_listener h (flutter_listeners w)) w
    | MessageChannel =>
        set_channel_listeners (remove_listener h (channel_listeners w)) w
    | CallbackSlot => w
    end).

(** [win.__onTownPassUser = h] and [delete win.__onTownPassUser] (the slot
    is an ordinary configurable property, so [delete] succeeds). *)
Definition install_callback (h : Handler) : M unit :=
  emit (EvAttach CallbackSlot h) ;;
  modify (set_onTownPassUser (SlotFn h)).

Definition delete_callback (h : Handler) : M unit :=
  emit (EvDetach CallbackSlot h) ;;
  modify (set_onTownPassUser SlotAbsent).

(** [target.onmessage = h]. *)
Definition set_onmessage (t : Target) (h : Handler) : M unit :=
  emit (EvAttach t h) ;;
  modify (fun w =>
    match t with
    | FlutterObject => set_flutter_onmessage (Some h) w
    | MessageChannel => set_channel_onmessage (Some h) w
    | _ => w
    end).

Definition cleanup : M unit :=
  log "cleanup listeners" ;;
  modify (set_cleanedRef true) ;;
  t <- gets timerRef ;;
  match t with
  | Some id =>
      if Nat.eqb id 0 then ret tt
      else (clearTimeout id ;; modify (set_timerRef None))
  | None => ret tt
  end ;;
  (* remove message listener *)
  l <- gets listenerRef ;;
  match l with
  | Some h =>
      removeEventListener WindowMessage h ;; modify (set_listenerRef None)
  | None => ret tt
  end ;;
  (* remove townpass_message_channel listener if set *)
  try_catch
    (c <- gets channelListenerRef ;;
     match c, townpass_message_channel (host E) with
     | Some h, Some caps =>
         if has_removeEventListener caps
         then removeEventListener MessageChannel h
         else
           (om <- gets channel_onmessage ;;
            if opt_handler_eqb om h
            then (emit (EvDetach MessageChannel h) ;;
                  modify (set_channel_onmessage None))
            else ret tt)
     | _, _ => ret tt
     end)
    (fun _ => ret tt) ;;
  modify (set_channelListenerRef None) ;;
  (* remove __onTownPassUser if we created it *)
  try_catch
    (s <- gets onTownPassUser ;;
     match s with
     | SlotFn h => delete_callback h
     | _ => ret tt
     end)
    (fun _ => ret tt).

Definition handleIncomingRaw (raw : JsVal) : M bool :=
  parsed <- parseIncoming raw ;;
  if truthy parsed
  then
    log "parsed TownPass user:" ;;
    setUser parsed ;;
    setIsLoading false ;;
    setError None ;;
    ret true
  else ret false.

(** The closures of [requestTownPassUser]. *)
Definition genericListener (ev : JsVal) : M unit :=
  d <- lift (get ev "data") ;;
  log "window.message event:" ;;
  ok <- handleIncomingRaw d ;;
  if ok then cleanup else ret tt.

Definition customListener (ev : JsVal) : M unit :=
  d <- lift (get ev "detail") ;;
  log "CustomEvent townpass:user:" ;;
  ok <- handleIncomingRaw d ;;
  if ok then cleanup else ret tt.

Definition onTownPassUserCallback (payload : JsVal) : M unit :=
  log "__onTownPassUser called:" ;;
  ok <- handleIncomingRaw payload ;;
  if ok then cleanup else ret tt.

Definition flutterHandler (ev : JsVal) : M unit :=
  log "flutterObject message received:" ;;
  let data0 := coalesce (opt_get ev "data") ev in
  data <- match data0 with
          | JStr s =>
              try_catch (JSON_parse_call s)
                (fun _ => log "flutterObject data parse failed" ;; ret data0)
          | _ => ret data0
          end ;;
  log "flutterObject parsed data:" ;;
  if str_is (opt_get data "name") "userinfo" && truthy (opt_get data "data")
  then
    d <- lift (get data "data") ;;
    log "Received userinfo from flutterObject:" ;;
    ok <- handleIncomingRaw d ;;
    if ok then cleanup else ret tt
  else if str_is (opt_get data "name") "userid" && truthy (opt_get data "data")
  then
    d <- lift (get data "data") ;;
    let userData := JObj [("id", d)] in
    log "Converted userid to TownPassUser:" ;;
    ok <- handleIncomingRaw userData ;;
    if ok then cleanup else ret tt
  else ret tt.

Definition channelHandler (ev : JsVal) : M unit :=
  let data := coalesce (opt_get ev "data") ev in
  log "townpass_message_channel event:" ;;
  parsed <- match data with
            | JStr s => p <- tryParse s ;; ret (coalesce p data)
            | _ => ret data
            end ;;
  ok <- handleIncomingRaw parsed ;;
  if ok then cleanup else ret tt.

Definition onTimeout : M unit :=
  log "requestTownPassUser timed out" ;;
  setIsLoading false ;;
  setError (Some "TownPass authentication timeout") ;;
  cleanup.

(** A call of a host method that takes a message. *)
Definition call_sink (p : Probe) (sink : Sink) (msg : JsVal) : M unit :=
  emit (EvProbe p msg) ;;
  if sink msg then throw (JsError "host method failed") else ret tt.

(** The closures created by one call share the call's number. *)
Definition new_call : M nat :=
  c <- gets call_seq ;;
  modify (set_call_seq (S c)) ;;
  ret c.

(** The [try] blocks of [requestTownPassUser], in source order. *)

(* register flutterObject listener if present *)
Definition attachFlutterObject (c : nat) : M unit :=
  try_catch
    (match flutterObject (host E) with
     | Some caps =>
         log "found flutterObject, attaching listener" ;;
         modify (set_channelListenerRef (Some (EngineFn c FlutterHandler))) ;;
         if has_addEventListener caps
         then addEventListener FlutterObject (EngineFn c FlutterHandler)
         else set_onmessage FlutterObject (EngineFn c FlutterHandler)
     | None => ret tt
     end)
    (fun _ => log "error attaching flutterObject listener").

(* register townpass_message_channel listener if present (fallback) *)
Definition attachMessageChannel (c : nat) : M unit :=
  try_catch
    (match townpass_message_channel (host E) with
     | Some caps =>
         log "found townpass_message_channel, attaching listener" ;;
         if has_addEventListener caps
         then addEventListener MessageChannel (EngineFn c ChannelHandler)
         else set_onmessage MessageChannel (EngineFn c ChannelHandler)
     | None => ret tt
     end)
    (fun _ => log "error attaching townpass_message_channel listener").

(* Now send request through flutterObject *)
Definition probeFlutterObject : M unit :=
  try_catch
    (match flutterObject (host E) with
     | Some {| postMessage := Some sink |} =>
         log "Sending to flutterObject.postMessage:" ;;
         call_sink ProbeFlutter sink
           (JStr (JSON_stringify E
                    (JObj [("name", JStr "userinfo"); ("data", JNull)])))
     | _ => log "flutterObject.postMessage not available"
     end)
    (fun _ => log "flutterObject.postMessage error").

(* Fallback: Try townpass_message_channel *)
Definition probeMessageChannel : M unit :=
  try_catch
    (match townpass_message_channel (host E) with
     | Some {| postMessage := Some sink |} =>
         log "Sending to townpass_message_channel.postMessage:" ;;
         call_sink ProbeChannel sink
           (JStr (JSON_stringify E
                    (JObj [("name", JStr "userid"); ("data", JNull)])))
     | _ => log "townpass_message_channel.postMessage not available"
     end)
    (fun _ => log "townpass_message_channel.postMessage error").

(* iOS WKWebView handler *)
Definition probeWebkit : M unit :=
  try_catch
    (match webkit_TownPass (host E) with
     | Some sink =>
         try_catch
           (log "posting to webkit.messageHandlers.TownPass.postMessage" ;;
            call_sink ProbeWebkit sink (JObj [("action", JStr "getUser")]))
           (fun _ =>
              (* try string form *)
              try_catch
                (call_sink ProbeWebkit sink (JStr "getUser"))
                (fun _ => log "webkit.post fallback failed"))
     | None => ret tt
     end)
    (fun _ => log "webkit call error").

(* ReactNativeWebView *)
Definition probeReactNative : M unit :=
  try_catch
    (match ReactNativeWebView_postMessage (host E) with
     | Some sink =>
         log "posting to ReactNativeWebView.postMessage" ;;
         call_sink ProbeReactNative sink
           (JStr (JSON_stringify E (JObj [("type", JStr "getUser")])))
     | None => ret tt
     end)
    (fun _ => log "ReactNativeWebView post error").

(* Android style bridge *)
Definition probeTownPass : M unit :=
  try_catch
    (match TownPass (host E) with
     | Some {| tp_postMessage := Some sink |} =>
         log "posting to TownPass.postMessage" ;;
         call_sink ProbeTownPass sink
           (JStr (JSON_stringify E (JObj [("type", JStr "getUser")])))
     | _ => ret tt
     end)
    (fun _ => log "TownPass.postMessage error").

(* generic window.postMessage *)
Definition probeWindow : M unit :=
  try_catch
    (log "posting fallback window.postMessage" ;;
     emit (EvProbe ProbeWindow
             (JStr (JSON_stringify E
                      (JObj [("source", JStr "web");
                             ("type", JStr "getUser")])))))
    (fun _ => log "window.postMessage error").

(* also try calling sync getUser if available *)
Definition syncGetUser : M unit :=
  try_catch
    (match TownPass (host E) with
     | Some {| tp_getUser := Some getUser |} =>
         log "attempting sync TownPass.getUser()" ;;
         emit (EvProbe ProbeGetUser JUndefined) ;;
         res <- lift getUser ;;
         if truthy res
         then
           log "sync TownPass.getUser returned:" ;;
           ok <- handleIncomingRaw res ;;
           if ok then cleanup else ret tt
         else ret tt
     | _ => ret tt
     end)
    (fun _ => log "sync getUser error").

(** The probes, lines 272 to 362 of the source. *)
Definition sendRequests : M unit :=
  probeFlutterObject ;;
  probeMessageChannel ;;
  probeWebkit ;;
  probeReactNative ;;
  probeTownPass ;;
  probeWindow ;;
  syncGetUser ;;
  log "requestTownPassUser: requests sent, waiting for host response...".

(** The state reset, the teardown of what came before, the listeners and the
    timer, lines 158 to 270 of the source. *)
Definition registerListeners (timeout : Z) : M unit :=
  log "requestTownPassUser start, timeout:" ;;
  modify (set_cleanedRef false) ;;
  setIsLoading true ;;
  setError None ;;
  setUser JNull ;;
  (* cleanup first *)
  cleanup ;;
  c <- new_call ;;
  (* register generic window.message listener FIRST *)
  modify (set_listenerRef (Some (EngineFn c GenericListener))) ;;
  addEventListener WindowMessage (EngineFn c GenericListener) ;;
  (* register CustomEvent 'townpass:user' listener *)
  addEventListener WindowTownpassUser (EngineFn c CustomListener) ;;
  (* register window.__onTownPassUser callback BEFORE sending request *)
  install_callback (EngineFn c OnTownPassUser) ;;
  attachFlutterObject c ;;
  attachMessageChannel c ;;
  (* set timeout AFTER listeners are set *)
  id <- setTimeout timeout ;;
  modify (set_timerRef (Some id)).

(** [requestTownPassUser(timeout = timeoutMs)]. *)
Definition requestTownPassUser (timeout : option Z) : M unit :=
  registerListeners
    (match timeout with Some t => t | None => timeoutMs end) ;;
  sendRequests.

(** [res.json()]: rejects when the body cannot be read or is not JSON. *)
Definition res_json (r : Response) : M JsVal :=
  match res_body r with
  | Some s =>
      match JSON_parse E s with
      | Some v => ret v
      | None => throw (JsError "SyntaxError")
      end
  | None => throw (JsError "TypeError: body")
  end.

(** [await res.text().catch(() => "")]. *)
Definition res_text_or_empty (r : Response) : string :=
  match res_body r with Some s => s | None => "" end.

Definition login_request (u : JsVal) : Request := {|
  req_url := authEndpoint;
  req_method := "POST";
  req_headers := [("Content-Type", "application/json")];
  req_credentials := "include";
  req_body := JSON_stringify E (JObj [("townpass_user", u)])
|}.

(** [loginWithTownPass]: the promise resolves with [Ok data] or rejects with
    [Throw e].  Every exception here is an [Error] with a message, so
    [e?.message ?? "Login failed"] is the message. *)
Definition loginWithTownPass (u : JsVal) : M JsVal :=
  setIsLoading true ;;
  setError None ;;
  try_catch
    (emit (EvFetch (login_request u)) ;;
     res <- match fetch E (login_request u) with
            | Rejected e => throw e
            | Responded r => ret r
            end ;;
     (if negb (res_ok res)
      then
        throw (JsError ("Backend auth failed " ++
                        number_to_string (res_status res) ++ " " ++
                        res_text_or_empty res))
      else ret tt) ;;
     data <- res_json res ;;
     setIsAuthenticated true ;;
     setIsLoading false ;;
     log "backend login success" ;;
     ret data)
    (fun e =>
       setIsAuthenticated false ;;
       setIsLoading false ;;
       setError (Some (exn_message e)) ;;
       log "loginWithTownPass error" ;;
       throw e).

Definition reset : M unit :=
  cleanup ;;
  setUser JNull ;;
  setIsAuthenticated false ;;
  setIsLoading false ;;
  setError None.

(* --------------------------------------------------------------------- *)
(** ** The event loop: what the host and the browser do to the hook *)
(* --------------------------------------------------------------------- *)

Definition run_handler (h : Handler) (arg : JsVal) : M unit :=
  match h with
  | EngineFn _ GenericListener => genericListener arg
  | EngineFn _ CustomListener => customListener arg
  | EngineFn _ OnTownPassUser => onTownPassUserCallback arg
  | EngineFn _ FlutterHandler => flutterHandler arg
  | EngineFn _ ChannelHandler => channelHandler arg
  | HostFn _ => ret tt
  end.

(** The handlers attached when the event is dispatched are called in order;
    one detached meanwhile is skipped; an exception of a handler is reported
    and does not stop the others. *)
Fixpoint run_listeners (t : Target) (hs : list Handler) (arg : JsVal)
  : M unit :=
  match hs with
  | [] => ret tt
  | h :: rest =>
      still <- gets (is_attached t h) ;;
      (if still
       then try_catch (run_handler h arg) (fun _ => ret tt)
       else ret tt) ;;
      run_listeners t rest arg
  end.

(** The host delivers [arg] on target [t]: a [MessageEvent] or [CustomEvent]
    for a listener target, the payload itself for the callback slot. *)
Definition deliver (t : Target) (arg : JsVal) : M unit :=
  hs <- gets (attached t) ;;
  run_listeners t hs arg.

(** The timer [id] expires. *)
Definition fire_timer (id : nat) : M unit :=
  armed <- gets (fun w => existsb (fun t => Nat.eqb (fst t) id) (timers w)) ;;
  if armed
  then
    modify (fun w =>
      set_timers (filter (fun t => negb (Nat.eqb (fst t) id)) (timers w)) w) ;;
    onTimeout
  else ret tt.

End Hook.

(* ===================================================================== *)
(** * The specification's side *)
(* ===================================================================== *)

(** ** Envelope shapes *)

(** The envelope shapes of the normalizer, as the specification names them:
    the three tagged envelopes, the two nested keys, the command reply, the
    event wrapper and the bare identity. *)
Inductive Shape :=
| TaggedSource | TaggedType | TaggedTypeUpper
| NestedTownpassUser | NestedUser
| CommandReply | EventDetail | BareIdentity.

(** An identity record: an object that carries an identifier. *)
Definition is_identity (u : JsVal) : bool :=
  match u with
  | JObj _ => truthy (opt_get u "id")
  | _ => false
  end.

(** The fields [TownPassUser] declares. *)
Definition declared_fields : list string :=
  ["id"; "name"; "email"; "phone"; "token"; "signature"; "timestamp"].

(** An identity record with declared fields only: a bare identity. *)
Definition plain_identity (u : JsVal) : bool :=
  match u with
  | JObj fs =>
      truthy (opt_get u "id") &&
      forallb (fun kv => existsb (String.eqb (fst kv)) declared_fields) fs
  | _ => false
  end.

Definition is_record (v : JsVal) : bool :=
  match v with JObj _ => true | _ => false end.

Section Shapes.

Variable E : Env.

(** When a decoded payload has a shape. *)
Definition shape_matches (s : Shape) (p : JsVal) : bool :=
  match s with
  | TaggedSource =>
      str_is (opt_get p "source") "townpass" &&
      (str_is (opt_get p "type") "user" ||
       str_is (opt_get p "type") "user_info")
  | TaggedType =>
      str_is (opt_get p "type") "townpass:user" && truthy (opt_get p "user")
  | TaggedTypeUpper =>
      (str_is (opt_get p "type") "TOWNPASS_USER" ||
       str_is (opt_get p "type") "TOWNPASS_USER_INFO") &&
      truthy (opt_get p "user")
  | NestedTownpassUser => truthy (opt_get p "townpass_user")
  | NestedUser =>
      truthy (opt_get p "user") && is_object (opt_get p "user") &&
      truthy (opt_get (opt_get p "user") "id")
  | CommandReply =>
      str_is (opt_get p "name") "userinfo" &&
      (is_string (opt_get p "data") || is_object (opt_get p "data"))
  | EventDetail =>
      truthy (opt_get p "detail") &&
      (truthy (opt_get (opt_get p "detail") "user") ||
       truthy (opt_get (opt_get p "detail") "townpass_user"))
  | BareIdentity => is_object p && truthy (opt_get p "id")
  end.

(** The record a shape carries. *)
Definition shape_record (s : Shape) (p : JsVal) : JsVal :=
  match s with
  | TaggedSource =>
      coalesce (opt_get p "payload") (coalesce (opt_get p "user") JNull)
  | TaggedType | TaggedTypeUpper | NestedUser => opt_get p "user"
  | NestedTownpassUser => opt_get p "townpass_user"
  | CommandReply =>
      match opt_get p "data" with
      | JStr s =>
          match JSON_parse E s with
          | Some v => coalesce v JNull
          | None => JNull
          end
      | d => d
      end
  | EventDetail =>
      coalesce (opt_get (opt_get p "detail") "user")
               (opt_get (opt_get p "detail") "townpass_user")
  | BareIdentity => p
  end.

(** One shape tried on a payload. *)
Definition attempt (s : Shape) (p : JsVal) : option JsVal :=
  if shape_matches s p then Some (shape_record s p) else None.

(** The one decode of a string input: the decoded value, or the string itself
    when it is not JSON (or is the JSON text [null]). *)
Definition decoded (raw : JsVal) : JsVal :=
  match raw with
  | JStr s =>
      match JSON_parse E s with
      | Some v => if is_null v then raw else v
      | None => raw
      end
  | _ => raw
  end.

(** Normalization by priority: the first shape of [order] the decoded
    payload has determines the result; a payload of no shape is not
    recognized. *)
Definition first_shape (order : list Shape) (p : JsVal) : JsVal :=
  match find (fun s => shape_matches s p) order with
  | Some s => shape_record s p
  | None => JNull
  end.

Definition normalize (order : list Shape) (raw : JsVal) : JsVal :=
  if truthy raw then first_shape order (decoded raw) else JNull.


End Shapes.

(** The priority order the specification lists, and the order of the
    [if] statements of [parseIncoming]. *)
Definition claimed_order : list Shape :=
  [TaggedSource; TaggedType; TaggedTypeUpper; NestedTownpassUser; NestedUser;
   CommandReply; BareIdentity; EventDetail].

Definition source_order : list Shape :=
  [TaggedSource; TaggedType; TaggedTypeUpper; NestedTownpassUser; NestedUser;
   CommandReply; EventDetail; BareIdentity].

(** ** Classes of events *)

Definition probes (l : list Event) : list Probe :=
  flat_map (fun e => match e with EvProbe p _ => [p] | _ => [] end) l.

Definition fetches (l : list Event) : list Request :=
  flat_map (fun e => match e with EvFetch r => [r] | _ => [] end) l.

Definition not_probe (e : Event) : bool :=
  match e with EvProbe _ _ => false | _ => true end.

(** Listening: a listener attached or a timer armed. *)
Definition not_listen (e : Event) : bool :=
  match e with EvAttach _ _ | EvSetTimeout _ _ => false | _ => true end.

Definition is_decode (e : Event) : bool :=
  match e with EvJsonParse _ => true | _ => false end.


Definition not_log (e : Event) : bool :=
  match e with EvLog _ => false | _ => true end.

(** The values [setUser] was called with, in order. *)
Definition set_users (l : list Event) : list JsVal :=
  flat_map (fun e => match e with EvSetUser v => [v] | _ => [] end) l.

(** The diagnostics of a run, in order. *)
Definition logs (l : list Event) : list string :=
  flat_map (fun e => match e with EvLog s => [s] | _ => [] end) l.

(** Neither a probe nor listening: what teardown and resolution produce. *)
Definition is_quiet (e : Event) : bool := not_probe e && not_listen e.

Definition probe_eqb (a b : Probe) : bool :=
  match a, b with
  | ProbeFlutter, ProbeFlutter | ProbeChannel, ProbeChannel
  | ProbeWebkit, ProbeWebkit | ProbeReactNative, ProbeReactNative
  | ProbeTownPass, ProbeTownPass | ProbeWindow, ProbeWindow
  | ProbeGetUser, ProbeGetUser => true
  | _, _ => false
  end.

(** The probes a host receives, in the order of [sendRequests]. *)
Definition probe_plan (h : Host) : list Probe :=
  match flutterObject h with
  | Some {| postMessage := Some _ |} => [ProbeFlutter]
  | _ => []
  end ++
  match townpass_message_channel h with
  | Some {| postMessage := Some _ |} => [ProbeChannel]
  | _ => []
  end ++
  match webkit_TownPass h with
  | Some sink =>
      if sink (JObj [("action", JStr "getUser")])
      then [ProbeWebkit; ProbeWebkit] else [ProbeWebkit]
  | None => []
  end ++
  match ReactNativeWebView_postMessage h with
  | Some _ => [ProbeReactNative]
  | None => []
  end ++
  match TownPass h with
  | Some {| tp_postMessage := Some _ |} => [ProbeTownPass]
  | _ => []
  end ++
  [ProbeWindow] ++
  match TownPass h with
  | Some {| tp_getUser := Some _ |} => [ProbeGetUser]
  | _ => []
  end.

(** Whether the host exposes the synchronous accessor
    [window.TownPass.getUser]. *)
Definition has_accessor (h : Host) : bool :=
  match TownPass h with
  | Some {| tp_getUser := Some _ |} => true
  | _ => false
  end.

(** The JSON body of a response, when it has one. *)
Definition json_body (E : Env) (r : Response) : option JsVal :=
  match res_body r with
  | Some s => JSON_parse E s
  | None => None
  end.


(** The claimed position of the synchronous accessor: when it is called at
    all, its call is the first probe. *)
Definition accessor_first (l : list Probe) : bool :=
  if existsb (probe_eqb ProbeGetUser) l
  then match l with p :: _ => probe_eqb p ProbeGetUser | [] => false end
  else true.

(** ** Judgements on statements *)

(** Every event of [m] is of class [P]; [m] never throws; [m] leaves the
    component [f] of the world as it was. *)
Definition emits {A} (P : Event -> bool) (m : M A) : Prop :=
  forall w, forallb P (events_of (m w)) = true.

Definition nothrow {A} (m : M A) : Prop :=
  forall w, exists a, result_of (m w) = Ok a.

Definition preserves {A B} (f : World -> B) (m : M A) : Prop :=
  forall w, f (world_of (m w)) = f w.

(** [m] is a computation of the value [a]: it returns [a], leaves the world
    as it was and does nothing but attempt decodes. *)
Definition computes {A} (m : M A) (a : A) : Prop :=
  forall w, exists l, m w = (Ok a, w, l) /\ forallb is_decode l = true.

(* ===================================================================== *)
(** * Test doubles *)
(* ===================================================================== *)

(** The double quote, and the JSON text of [{"id":"u1","name":"Ada"}]. *)
Definition dq : string := String (ascii_of_nat 34) EmptyString.

Definition ada : JsVal := JObj [("id", JStr "u1"); ("name", JStr "Ada")].

Definition ada_json : string :=
  "{" ++ dq ++ "id" ++ dq ++ ":" ++ dq ++ "u1" ++ dq ++ "," ++
  dq ++ "name" ++ dq ++ ":" ++ dq ++ "Ada" ++ dq ++ "}".

Definition u1 : JsVal := JObj [("id", JStr "u1")].
Definition u2 : JsVal := JObj [("id", JStr "u2")].

(** What the secondary channel is asked for, answered, and its JSON text
    [{"name":"userid","data":"u2"}]. *)
Definition userid_reply : JsVal :=
  JObj [("name", JStr "userid"); ("data", JStr "u2")].

Definition userid_json : string :=
  "{" ++ dq ++ "name" ++ dq ++ ":" ++ dq ++ "userid" ++ dq ++ "," ++
  dq ++ "data" ++ dq ++ ":" ++ dq ++ "u2" ++ dq ++ "}".

(** A [JSON.stringify] for data without characters to escape. *)
Fixpoint stringify_plain (v : JsVal) : string :=
  match v with
  | JUndefined => "undefined"
  | JNull => "null"
  | JBool true => "true"
  | JBool false => "false"
  | JNum n => number_to_string n
  | JStr s => dq ++ s ++ dq
  | JArr items => "[" ++ String.concat "," (map stringify_plain items) ++ "]"
  | JObj fs =>
      "{" ++
      String.concat ","
        (map (fun kv : string * JsVal =>
                match kv with
                | (k, x) => (dq ++ k ++ dq ++ ":" ++ stringify_plain x)%string
                end) fs) ++
      "}"
  end.

(** A [JSON.parse] that decodes the texts of a table and rejects every other
    text. *)
Definition table_parse (table : list (string * JsVal)) (s : string)
  : option JsVal :=
  match find (fun kv => fst kv =? s) table with
  | Some kv => Some (snd kv)
  | None => None
  end.

Definition no_host : Host := {|
  flutterObject := None; townpass_message_channel := None;
  webkit_TownPass := None; ReactNativeWebView_postMessage := None;
  TownPass := None |}.

Definition accepting : Sink := fun _ => false.

Definition emitter : BridgeCaps := {|
  has_addEventListener := true; has_removeEventListener := true;
  postMessage := Some accepting |}.

(** A host with the secondary channel only. *)
Definition channel_host : Host := {|
  flutterObject := None; townpass_message_channel := Some emitter;
  webkit_TownPass := None; ReactNativeWebView_postMessage := None;
  TownPass := None |}.

(** A host with the primary bridge object only. *)
Definition flutter_host : Host := {|
  flutterObject := Some emitter; townpass_message_channel := None;
  webkit_TownPass := None; ReactNativeWebView_postMessage := None;
  TownPass := None |}.

(** A host with both structured channels. *)
Definition bridge_host : Host := {|
  flutterObject := Some emitter; townpass_message_channel := Some emitter;
  webkit_TownPass := None; ReactNativeWebView_postMessage := None;
  TownPass := None |}.

(** A host that exposes every mechanism, the synchronous accessor
    included. *)
Definition full_host : Host := {|
  flutterObject := Some emitter; townpass_message_channel := Some emitter;
  webkit_TownPass := Some accepting;
  ReactNativeWebView_postMessage := Some accepting;
  TownPass := Some {| tp_postMessage := Some accepting;
                      tp_getUser := Some (Ok JNull) |} |}.

(** A backend that answers every request with the given response. *)
Definition test_env (h : Host) (r : Response) : Env := {|
  JSON_parse := table_parse [(ada_json, ada); (userid_json, userid_reply)];
  JSON_stringify := stringify_plain;
  fetch := fun _ => Responded r;
  host := h;
  opts := None |}.


Definition unauthorized : Response :=
  {| res_status := 401; res_body := Some "denied" |}.

Definition ok_not_json : Response :=
  {| res_status := 200; res_body := Some "OK" |}.

Definition ok_json : Response :=
  {| res_status := 200; res_body := Some ada_json |}.

(** Both an event wrapper and a bare identity. *)
Definition ambiguous : JsVal :=
  JObj [("id", JStr "u1"); ("detail", JObj [("user", u2)])].


(** ** Scenarios *)

Definition plain_env : Env := test_env no_host unauthorized.
Definition bridge_env : Env := test_env bridge_host unauthorized.
Definition channel_env : Env := test_env channel_host unauthorized.
Definition flutter_env : Env := test_env flutter_host unauthorized.

(** An open request of a freshly mounted hook. *)
Definition open_world : World :=
  world_of (requestTownPassUser plain_env None initial_world).

(** A request resolved by a window message carrying [u1], and then a
    [townpass:user] event carrying [u2]. *)
Definition resolved_world : World :=
  world_of ((requestTownPassUser plain_env None ;;
             deliver plain_env WindowMessage (MessageEvent u1))
              initial_world).

Definition late_event_world : World :=
  world_of (deliver plain_env WindowTownpassUser (CustomEvent u2)
              resolved_world).



(** A second request while the first is open, and then a [townpass:user]
    event carrying [u1]. *)
Definition second_request : Result unit * World * list Event :=
  requestTownPassUser bridge_env None
    (world_of (requestTownPassUser bridge_env None initial_world)).

Definition event_after_second_request : Result unit * World * list Event :=
  deliver bridge_env WindowTownpassUser (CustomEvent u1)
    (world_of second_request).

(** A request on the secondary channel, answered with the userid reply as an
    object and as JSON text; the same reply on the primary bridge. *)
Definition channel_request : Result unit * World * list Event :=
  requestTownPassUser channel_env None initial_world.

Definition channel_replied : World :=
  world_of ((deliver channel_env MessageChannel (MessageEvent userid_reply) ;;
             deliver channel_env MessageChannel
               (MessageEvent (JStr userid_json)))
              (world_of channel_request)).

Definition flutter_replied : World :=
  world_of ((requestTownPassUser flutter_env None ;;
             deliver flutter_env FlutterObject (MessageEvent userid_reply))
              initial_world).

(** A request against a host that exposes every mechanism. *)
Definition full_request : Result unit * World * list Event :=
  requestTownPassUser (test_env full_host unauthorized) None initial_world.


(* ===================================================================== *)
(** * Worlds of the engine *)
(* ===================================================================== *)

(** ** Teardown and resolution as functions on the world *)

(** The world [cleanup] leaves: each step of its body on the world. *)
Definition cleanup_world (E : Env) (w : World) : World :=
  let w1 := set_cleanedRef true w in
  let w2 :=
    match timerRef w1 with
    | Some id =>
        if Nat.eqb id 0 then w1
        else set_timerRef None
               (set_timers
                  (filter (fun t => negb (Nat.eqb (fst t) id)) (timers w1)) w1)
    | None => w1
    end in
  let w3 :=
    match listenerRef w2 with
    | Some h =>
        set_listenerRef None
          (set_message_listeners (remove_listener h (message_listeners w2)) w2)
    | None => w2
    end in
  let w4 :=
    match channelListenerRef w3, townpass_message_channel (host E) with
    | Some h, Some caps =>
        if has_removeEventListener caps
        then set_channel_listeners (remove_listener h (channel_listeners w3)) w3
        else if opt_handler_eqb (channel_onmessage w3) h
             then set_channel_onmessage None w3
             else w3
    | _, _ => w3
    end in
  let w5 := set_channelListenerRef None w4 in
  match onTownPassUser w5 with
  | SlotFn _ => set_onTownPassUser SlotAbsent w5
  | _ => w5
  end.

(** The world a handler leaves when it is given [raw]: resolved and torn
    down when [raw] is recognized, as it was otherwise. *)
Definition resolve_world (E : Env) (raw : JsVal) (w : World) : World :=
  if truthy (normalize E source_order raw)
  then cleanup_world E
         (set_error None
            (set_isLoading false
               (set_user (normalize E source_order raw) w)))
  else w.

(** [m], run in [w], returns [a] and leaves the world [w']. *)
Definition returns {A} (m : M A) (w : World) (a : A) (w' : World) : Prop :=
  exists l, m w = (Ok a, w', l).

(** What the handler of the secondary channel hands to [handleIncomingRaw]:
    the event's data (or the event), decoded when it is JSON text. *)
Definition channel_input (E : Env) (ev : JsVal) : JsVal :=
  let data := coalesce (opt_get ev "data") ev in
  match data with
  | JStr s =>
      match JSON_parse E s with
      | Some p => coalesce p data
      | None => data
      end
  | _ => data
  end.

(** The command the handler of the primary bridge reads in an event, and
    what it hands to [handleIncomingRaw] for it, if anything. *)
Definition flutter_command (E : Env) (ev : JsVal) : JsVal :=
  let data0 := coalesce (opt_get ev "data") ev in
  match data0 with
  | JStr s =>
      match JSON_parse E s with
      | Some p => p
      | None => data0
      end
  | _ => data0
  end.

Definition flutter_input (E : Env) (ev : JsVal) : option JsVal :=
  let data := flutter_command E ev in
  if str_is (opt_get data "name") "userinfo" && truthy (opt_get data "data")
  then Some (opt_get data "data")
  else if str_is (opt_get data "name") "userid" && truthy (opt_get data "data")
  then Some (JObj [("id", opt_get data "data")])
  else None.

(** ** Invariants of the reachable worlds *)

(** At most one timeout is pending, and it is the one [timerRef] holds. *)
Definition single_timer (w : World) : Prop :=
  timers w = [] \/
  exists id ms, timers w = [(id, ms)] /\ timerRef w = Some id /\ id <> 0.

Definition is_engine (h : Handler) : bool :=
  match h with EngineFn _ _ => true | HostFn _ => false end.

(** The only listener of the engine on the window's [message] event is the
    one [listenerRef] holds. *)
Definition single_message_listener (w : World) : Prop :=
  forall h, In h (message_listeners w) -> is_engine h = true ->
            listenerRef w = Some h.

(** ** The messages of the probes *)

(** The probes of a run with the message each one carries, in order. *)
Definition probe_messages (l : list Event) : list (Probe * JsVal) :=
  flat_map (fun e => match e with EvProbe p m => [(p, m)] | _ => [] end) l.

(** What [sendRequests] asks each mechanism the host exposes: [userinfo] on
    the primary bridge, [userid] on the secondary channel, a [getUser]
    action on the WebKit handler (again as plain text when the first call
    throws), a [getUser] message on the React Native and Android bridges and
    on the window, and a call of the synchronous accessor. *)
Definition message_plan (E : Env) : list (Probe * JsVal) :=
  match flutterObject (host E) with
  | Some {| postMessage := Some _ |} =>
      [(ProbeFlutter,
        JStr (JSON_stringify E
                (JObj [("name", JStr "userinfo"); ("data", JNull)])))]
  | _ => []
  end ++
  match townpass_message_channel (host E) with
  | Some {| postMessage := Some _ |} =>
      [(ProbeChannel,
        JStr (JSON_stringify E
                (JObj [("name", JStr "userid"); ("data", JNull)])))]
  | _ => []
  end ++
  match webkit_TownPass (host E) with
  | Some sink =>
      (ProbeWebkit, JObj [("action", JStr "getUser")]) ::
      (if sink (JObj [("action", JStr "getUser")])
       then [(ProbeWebkit, JStr "getUser")] else [])
  | None => []
  end ++
  match ReactNativeWebView_postMessage (host E) with
  | Some _ =>
      [(ProbeReactNative,
        JStr (JSON_stringify E (JObj [("type", JStr "getUser")])))]
  | None => []
  end ++
  match TownPass (host E) with
  | Some {| tp_postMessage := Some _ |} =>
      [(ProbeTownPass,
        JStr (JSON_stringify E (JObj [("type", JStr "getUser")])))]
  | _ => []
  end ++
  [(ProbeWindow,
    JStr (JSON_stringify E
            (JObj [("source", JStr "web"); ("type", JStr "getUser")])))] ++
  match TownPass (host E) with
  | Some {| tp_getUser := Some _ |} => [(ProbeGetUser, JUndefined)]
  | _ => []
  end.

(** A window with a listener of the engine and a listener of the host on
    its [message] event. *)
Definition listening_world : World :=
  set_listenerRef (Some (EngineFn 0 GenericListener))
    (set_message_listeners [EngineFn 0 GenericListener; HostFn 3]
       initial_world).

(* ===================================================================== *)
(** * The demo component *)
(* ===================================================================== *)

(** The effects of [src/examples/TownPassDemo.tsx], the component that uses
    the hook.  It creates the hook with diagnostics on, a timeout of 3000 ms
    and the default endpoint. *)
Definition demo_options : Options := {|
  opt_debug := Some true; opt_timeout := Some 3000%Z;
  opt_authEndpoint := None |}.

Definition demo_env (E : Env) : Env := {|
  JSON_parse := JSON_parse E;
  JSON_stringify := JSON_stringify E;
  fetch := fetch E;
  host := host E;
  opts := Some demo_options |}.

(** [console.log] and [console.error] of the component. *)
Definition console_line (msg : string) : M unit := emit (EvLog msg).

(** The effect that runs when the component is mounted. *)
Definition mountEffect (E : Env) : M unit :=
  console_line
    "[TownPassDemo] Component mounted, requesting TownPass user..." ;;
  requestTownPassUser (demo_env E) None.

(** The effect that runs when [user], [isAuthenticated] or [isLoading]
    changes; a rejected login is caught and reported. *)
Definition loginEffect (E : Env) : M unit :=
  u <- gets user ;;
  a <- gets isAuthenticated ;;
  l <- gets isLoading ;;
  if truthy u && negb a && negb l
  then
    console_line "[TownPassDemo] User received, attempting login..." ;;
    try_catch
      (loginWithTownPass (demo_env E) u ;; ret tt)
      (fun _ => console_line "[TownPassDemo] Login failed:")
  else ret tt.

(** The condition under which the login effect logs in. *)
Definition wants_login (w : World) : bool :=
  truthy (user w) && negb (isAuthenticated w) && negb (isLoading w).





(* ===================================================================== *)
(** * Proofs *)
(* ===================================================================== *)

(** ** JavaScript values *)

Lemma get_not_nullish u k : nullish u = false -> get u k = Ok (opt_get u k).
Proof. destruct u; simpl; intros; congruence. Qed.

Lemma truthy_not_nullish u : truthy u = true -> nullish u = false.
Proof. destruct u; simpl; intros; congruence. Qed.

Lemma is_identity_truthy u : is_identity u = true -> truthy u = true.
Proof. destruct u; intros H; try discriminate H; reflexivity. Qed.

Lemma is_identity_object u : is_identity u = true -> is_object u = true.
Proof. destruct u; intros H; try discriminate H; reflexivity. Qed.


Lemma is_identity_nullish u : is_identity u = true -> nullish u = false.
Proof. intros H. apply truthy_not_nullish, is_identity_truthy, H. Qed.

Lemma plain_is_identity u : plain_identity u = true -> is_identity u = true.
Proof.
  destruct u; simpl; try congruence.
  intros H. apply andb_true_iff in H. tauto.
Qed.


(** ** Computations *)

Lemma computes_ret {A} (a : A) : computes (ret a) a.
Proof. intros w. exists []. split; reflexivity. Qed.

Lemma computes_lift {A} (a : A) : computes (lift (Ok a)) a.
Proof. intros w. exists []. split; reflexivity. Qed.

Lemma computes_bind {A B} (m : M A) (f : A -> M B) a b :
  computes m a -> computes (f a) b -> computes (bind m f) b.
Proof.
  intros Hm Hf w. destruct (Hm w) as (l1 & E1 & D1).
  destruct (Hf w) as (l2 & E2 & D2).
  exists (l1 ++ l2). unfold bind. rewrite E1, E2. split; [reflexivity|].
  rewrite forallb_app, D1, D2. reflexivity.
Qed.

Lemma computes_eq {A} (m : M A) a b : computes m a -> a = b -> computes m b.
Proof. intros H <-. exact H. Qed.

Lemma computes_get u k :
  nullish u = false -> computes (lift (get u k)) (opt_get u k).
Proof. intros H. rewrite (get_not_nullish _ _ H). apply computes_lift. Qed.

Lemma computes_if_return (c : M bool) (r : M JsVal) b v :
  computes c b -> (b = true -> computes r v) ->
  computes (if_return c r) (if b then Some v else None).
Proof.
  intros Hc Hr. unfold if_return. eapply computes_bind; [exact Hc|].
  destruct b.
  - eapply computes_bind; [apply Hr; reflexivity | apply computes_ret].
  - apply computes_ret.
Qed.

Lemma computes_seq (s1 s2 : Stmt) o1 o2 :
  computes s1 o1 -> computes s2 o2 ->
  computes (s1 ;;; s2) (match o1 with Some v => Some v | None => o2 end).
Proof.
  intros H1 H2. unfold seq_stmt. eapply computes_bind; [exact H1|].
  destruct o1; [apply computes_ret | exact H2].
Qed.

Lemma computes_body (s : Stmt) o last :
  computes s o ->
  computes (body s last) (match o with Some v => v | None => last end).
Proof.
  intros H. unfold body. eapply computes_bind; [exact H|].
  destruct o; apply computes_ret.
Qed.

Lemma computes_and_then a (m : M bool) b :
  (a = true -> computes m b) -> computes (and_then a m) (a && b).
Proof.
  intros H. unfold and_then.
  destruct a; simpl; [apply H; reflexivity | apply computes_ret].
Qed.

(** ** The normalizer *)

Section NormalizerProofs.

Variable E : Env.

Lemma computes_tryParse s :
  computes (tryParse E s)
    (match JSON_parse E s with Some v => v | None => JNull end).
Proof.
  intros w. unfold tryParse, try_catch, JSON_parse_call, bind, emit.
  destruct (JSON_parse E s); cbn; eexists; split; reflexivity.
Qed.

(** Each [if] statement of [knownShapes] tries one shape. *)
Lemma knownShapes_attempts payload :
  nullish payload = false ->
  computes (knownShapes E payload)
    (match attempt E TaggedSource payload with Some v => v | None =>
     match attempt E TaggedType payload with Some v => v | None =>
     match attempt E TaggedTypeUpper payload with Some v => v | None =>
     match attempt E NestedTownpassUser payload with Some v => v | None =>
     match attempt E NestedUser payload with Some v => v | None =>
     match attempt E CommandReply payload with Some v => v | None =>
     match attempt E EventDetail payload with Some v => v | None =>
     match attempt E BareIdentity payload with Some v => v | None => JNull
     end end end end end end end end).
Proof.
  intros NN. unfold knownShapes.
  eapply computes_eq.
  { apply computes_body.
    repeat (apply computes_seq).
    - (* tagged by source *)
      apply computes_if_return; [apply computes_ret|]. intros _.
      eapply computes_bind; [apply computes_get; exact NN|].
      instantiate (1 := shape_record E TaggedSource payload).
      simpl. unfold coalesce.
      destruct (nullish (opt_get payload "payload")).
      + eapply computes_bind; [apply computes_get; exact NN|].
        apply computes_ret.
      + apply computes_ret.
    - (* tagged by type *)
      apply computes_if_return; [apply computes_ret|]. intros _.
      apply computes_get; exact NN.
    - apply computes_if_return; [apply computes_ret|]. intros _.
      apply computes_get; exact NN.
    - (* townpass_user *)
      apply computes_if_return; [apply computes_ret|]. intros _.
      apply computes_get; exact NN.
    - (* user *)
      apply computes_if_return.
      + apply computes_and_then. intros T.
        eapply computes_bind; [apply computes_get; exact NN|].
        apply computes_and_then. intros _.
        eapply computes_bind;
          [apply computes_get; apply truthy_not_nullish; exact T|].
        apply computes_ret.
      + intros _. apply computes_get; exact NN.
    - (* userinfo *)
      instantiate (1 := attempt E CommandReply payload).
      unfold attempt. simpl.
      destruct (str_is (opt_get payload "name") "userinfo"); simpl.
      + eapply computes_bind; [apply computes_get; exact NN|].
        destruct (opt_get payload "data"); simpl;
          try (eapply computes_eq;
               [apply computes_if_return;
                [apply computes_ret | intros _; apply computes_ret]
               | reflexivity]).
        eapply computes_bind; [apply computes_tryParse|].
        destruct (JSON_parse E s); apply computes_ret.
      + apply computes_ret.
    - (* detail *)
      apply computes_if_return.
      + apply computes_and_then. intros T.
        eapply computes_bind; [apply computes_get; exact NN|].
        eapply computes_bind;
          [apply computes_get; apply truthy_not_nullish; exact T|].
        instantiate
          (1 := truthy (opt_get (opt_get payload "detail") "user") ||
                truthy (opt_get (opt_get payload "detail") "townpass_user")).
        destruct (truthy (opt_get (opt_get payload "detail") "user")); simpl.
        * apply computes_ret.
        * eapply computes_bind;
            [apply computes_get; apply truthy_not_nullish; exact T|].
          apply computes_ret.
      + intros T. apply andb_true_iff in T. destruct T as [T _].
        eapply computes_bind; [apply computes_get; exact NN|].
        eapply computes_bind;
          [apply computes_get; apply truthy_not_nullish; exact T|].
        instantiate (1 := shape_record E EventDetail payload).
        simpl. unfold coalesce.
        destruct (nullish (opt_get (opt_get payload "detail") "user")).
        * eapply computes_bind; [apply computes_get; exact NN|].
          apply computes_get; apply truthy_not_nullish; exact T.
        * apply computes_ret.
    - (* bare identity *)
      apply computes_if_return.
      + apply computes_and_then. intros _.
        eapply computes_bind; [apply computes_get; exact NN|].
        apply computes_ret.
      + intros _. apply computes_ret. }
  unfold attempt. simpl.
  rewrite <- !andb_assoc.
  repeat match goal with |- context [if ?c then _ else _] => destruct c end;
    reflexivity.
Qed.

Lemma knownShapes_first_shape payload :
  is_null payload = false ->
  computes (knownShapes E payload) (first_shape E source_order payload).
Proof.
  intros NN. destruct payload; try discriminate;
    try (eapply computes_eq;
         [apply knownShapes_attempts; reflexivity|];
         unfold attempt, first_shape; simpl;
         repeat match goal with
                | |- context [if ?c then _ else _] => destruct c
                end; reflexivity).
  intros w. exists []. split; reflexivity.
Qed.

(** [parseIncoming] computes the normalization by the source's order. *)
Lemma parseIncoming_computes raw :
  computes (parseIncoming E raw) (normalize E source_order raw).
Proof.
  unfold parseIncoming, normalize.
  destruct (truthy raw) eqn:T; simpl; [|apply computes_ret].
  assert (computes (knownShapes E (decoded E raw))
            (first_shape E source_order (decoded E raw))) as H.
  { apply knownShapes_first_shape.
    destruct raw; try discriminate; try reflexivity.
    simpl. destruct (JSON_parse E s) as [v|]; [|reflexivity].
    destruct v; reflexivity. }
  destruct raw; try (eapply computes_bind; [apply computes_ret | exact H]).
  eapply computes_bind; [|exact H].
  eapply computes_bind; [apply computes_tryParse|].
  simpl. destruct (JSON_parse E s) as [v|]; apply computes_ret.
Qed.




End NormalizerProofs.

(** C4 (amended): [parseIncoming] tries the envelope shapes in the fixed
    order of its [if] statements: the tagged envelopes (source
    discriminator, then type discriminator), the nested [townpass_user] and
    [user] keys, the [{name: "userinfo", data}] command reply (whose data
    may be a JSON text), the event wrapper [detail], and last the bare
    object carrying an identifier; the first shape in this order that the
    decoded input has determines the returned record. *)
Theorem parseIncoming_priority_order :
  forall (E : Env) (raw : JsVal) (w : World),
    result_of (parseIncoming E raw w) = Ok (normalize E source_order raw).
Proof.
  intros E raw w.
  destruct (parseIncoming_computes E raw w) as (l & Hrun & _).
  rewrite Hrun. reflexivity.
Qed.

(** C4, as stated, fails: on an object that is both an event wrapper and a
    bare identity the claimed order (bare objects before event wrappers)
    selects the object itself, while the source returns the wrapped user. *)
Lemma claimed_order_counterexample :
  shape_matches BareIdentity ambiguous = true /\
  shape_matches EventDetail ambiguous = true /\
  normalize (test_env no_host unauthorized) claimed_order ambiguous
    = ambiguous /\
  result_of (parseIncoming (test_env no_host unauthorized) ambiguous
               initial_world) = Ok u2 /\
  result_of (parseIncoming (test_env no_host unauthorized) ambiguous
               initial_world)
    <> Ok (normalize (test_env no_host unauthorized) claimed_order ambiguous).
Proof.
  repeat split; try reflexivity.
  vm_compute. discriminate.
Qed.


(** ** The monad *)

Lemma events_bind {A B} (m : M A) (f : A -> M B) w :
  events_of (bind m f w) =
  events_of (m w) ++
  match result_of (m w) with
  | Ok a => events_of (f a (world_of (m w)))
  | Throw _ => []
  end.
Proof.
  unfold bind, events_of, result_of, world_of.
  destruct (m w) as [[[a|e] w1] l1]; simpl.
  - destruct (f a w1) as [[r w2] l2]. reflexivity.
  - rewrite app_nil_r. reflexivity.
Qed.

Lemma world_bind {A B} (m : M A) (f : A -> M B) w :
  world_of (bind m f w) =
  match result_of (m w) with
  | Ok a => world_of (f a (world_of (m w)))
  | Throw _ => world_of (m w)
  end.
Proof.
  unfold bind, events_of, result_of, world_of.
  destruct (m w) as [[[a|e] w1] l1]; simpl.
  - destruct (f a w1) as [[r w2] l2]. reflexivity.
  - reflexivity.
Qed.

Lemma result_bind {A B} (m : M A) (f : A -> M B) w :
  result_of (bind m f w) =
  match result_of (m w) with
  | Ok a => result_of (f a (world_of (m w)))
  | Throw e => Throw e
  end.
Proof.
  unfold bind, events_of, result_of, world_of.
  destruct (m w) as [[[a|e] w1] l1]; simpl.
  - destruct (f a w1) as [[r w2] l2]. reflexivity.
  - reflexivity.
Qed.

Lemma events_try {A} (m : M A) (h : Exn -> M A) w :
  events_of (try_catch m h w) =
  events_of (m w) ++
  match result_of (m w) with
  | Ok a => []
  | Throw e => events_of (h e (world_of (m w)))
  end.
Proof.
  unfold try_catch, events_of, result_of, world_of.
  destruct (m w) as [[[a|e] w1] l1]; simpl.
  - rewrite app_nil_r. reflexivity.
  - destruct (h e w1) as [[r w2] l2]. reflexivity.
Qed.

Lemma world_try {A} (m : M A) (h : Exn -> M A) w :
  world_of (try_catch m h w) =
  match result_of (m w) with
  | Ok a => world_of (m w)
  | Throw e => world_of (h e (world_of (m w)))
  end.
Proof.
  unfold try_catch, events_of, result_of, world_of.
  destruct (m w) as [[[a|e] w1] l1]; simpl.
  - reflexivity.
  - destruct (h e w1) as [[r w2] l2]. reflexivity.
Qed.

Lemma result_try {A} (m : M A) (h : Exn -> M A) w :
  result_of (try_catch m h w) =
  match result_of (m w) with
  | Ok a => Ok a
  | Throw e => result_of (h e (world_of (m w)))
  end.
Proof.
  unfold try_catch, events_of, result_of, world_of.
  destruct (m w) as [[[a|e] w1] l1]; simpl.
  - reflexivity.
  - destruct (h e w1) as [[r w2] l2]. reflexivity.
Qed.

(** ** Rules of the judgements *)

Section Rules.

Context {A B : Type}.
Variable P : Event -> bool.

Lemma emits_ret (a : A) : emits P (ret a).
Proof. intros w. reflexivity. Qed.
Lemma emits_throw e : emits P (@throw A e).
Proof. intros w. reflexivity. Qed.
Lemma emits_gets (f : World -> A) : emits P (gets f).
Proof. intros w. reflexivity. Qed.
Lemma emits_modify f : emits P (modify f).
Proof. intros w. reflexivity. Qed.
Lemma emits_lift (r : Result A) : emits P (lift r).
Proof. intros w. reflexivity. Qed.
Lemma emits_emit e : P e = true -> emits P (emit e).
Proof. intros H w. simpl. rewrite H. reflexivity. Qed.
Lemma emits_bind (m : M A) (f : A -> M B) :
  emits P m -> (forall a, emits P (f a)) -> emits P (bind m f).
Proof.
  intros Hm Hf w. rewrite events_bind, forallb_app, Hm. simpl.
  destruct (result_of (m w)); [apply Hf | reflexivity].
Qed.
Lemma emits_try (m : M A) (h : Exn -> M A) :
  emits P m -> (forall e, emits P (h e)) -> emits P (try_catch m h).
Proof.
  intros Hm Hh w. rewrite events_try, forallb_app, Hm. simpl.
  destruct (result_of (m w)); [reflexivity | apply Hh].
Qed.

Lemma nothrow_ret (a : A) : nothrow (ret a).
Proof. intros w. exists a. reflexivity. Qed.
Lemma nothrow_gets (f : World -> A) : nothrow (gets f).
Proof. intros w. eexists. reflexivity. Qed.
Lemma nothrow_lift (a : A) : nothrow (lift (Ok a)).
Proof. intros w. eexists. reflexivity. Qed.
Lemma nothrow_bind (m : M A) (f : A -> M B) :
  nothrow m -> (forall a, nothrow (f a)) -> nothrow (bind m f).
Proof.
  intros Hm Hf w. rewrite result_bind. destruct (Hm w) as [a ->]. apply Hf.
Qed.
Lemma nothrow_try (m : M A) (h : Exn -> M A) :
  (forall e, nothrow (h e)) -> nothrow (try_catch m h).
Proof.
  intros Hh w. rewrite result_try. destruct (result_of (m w)); [eauto | apply Hh].
Qed.

Variable C : Type.
Variable g : World -> C.
Lemma preserves_ret (a : A) : preserves g (ret a).
Proof. intros w. reflexivity. Qed.
Lemma preserves_throw e : preserves g (@throw A e).
Proof. intros w. reflexivity. Qed.
Lemma preserves_gets (f : World -> A) : preserves g (gets f).
Proof. intros w. reflexivity. Qed.
Lemma preserves_lift (r : Result A) : preserves g (lift r).
Proof. intros w. reflexivity. Qed.
Lemma preserves_bind (m : M A) (f : A -> M B) :
  preserves g m -> (forall a, preserves g (f a)) -> preserves g (bind m f).
Proof.
  intros Hm Hf w. rewrite world_bind.
  destruct (result_of (m w)); [rewrite Hf|]; apply Hm.
Qed.
Lemma preserves_try (m : M A) (h : Exn -> M A) :
  preserves g m -> (forall e, preserves g (h e)) -> preserves g (try_catch m h).
Proof.
  intros Hm Hh w. rewrite world_try.
  destruct (result_of (m w)); [|rewrite Hh]; apply Hm.
Qed.
End Rules.

Lemma nothrow_emit e : nothrow (emit e).
Proof. intros w. eexists. reflexivity. Qed.
Lemma nothrow_modify f : nothrow (modify f).
Proof. intros w. eexists. reflexivity. Qed.
Lemma preserves_emit {C} (g : World -> C) e : preserves g (emit e).
Proof. intros w. reflexivity. Qed.
Lemma preserves_modify {C} (g : World -> C) f :
  (forall w, g (f w) = g w) -> preserves g (modify f).
Proof. intros H w. apply H. Qed.

(** Unfold the hook's statements down to the operations of the monad. *)
Ltac prims :=
  unfold onTimeout, cleanup, clearTimeout, setTimeout, addEventListener,
    removeEventListener, install_callback, delete_callback,
    set_onmessage, setUser, setIsLoading, setError, setIsAuthenticated,
    new_call, call_sink, log.

(** Case analysis on what a statement branches on. *)
Ltac branch :=
  match goal with
  | |- _ (match ?x with _ => _ end) => destruct x
  end.

(** The three judgements, by the structure of the statement. *)
Ltac emits_tac :=
  repeat first
    [ apply emits_ret | apply emits_throw | apply emits_gets
    | apply emits_modify | apply emits_lift
    | apply emits_emit; reflexivity
    | apply emits_bind | apply emits_try
    | branch
    | match goal with |- forall _, _ => intro end ].

Ltac nothrow_tac :=
  repeat first
    [ apply nothrow_ret | apply nothrow_gets | apply nothrow_modify
    | apply nothrow_emit | apply nothrow_lift
    | apply nothrow_bind | apply nothrow_try
    | branch
    | match goal with |- forall _, _ => intro end ].

Ltac preserves_tac :=
  repeat first
    [ apply preserves_ret | apply preserves_throw | apply preserves_gets
    | apply preserves_emit | apply preserves_lift
    | apply preserves_modify; intros [] ; reflexivity
    | apply preserves_bind | apply preserves_try
    | branch
    | match goal with |- forall _, _ => intro end ].


Lemma emits_weaken {A} (P Q : Event -> bool) (m : M A) :
  (forall e, P e = true -> Q e = true) -> emits P m -> emits Q m.
Proof.
  intros PQ H w. specialize (H w). rewrite forallb_forall in *. auto.
Qed.

Lemma computes_emits {A} (P : Event -> bool) (m : M A) a :
  (forall s, P (EvJsonParse s) = true) -> computes m a -> emits P m.
Proof.
  intros HP H w. destruct (H w) as (l & -> & Hl). simpl.
  rewrite forallb_forall in *. intros e He. specialize (Hl e He).
  destruct e; try discriminate. apply HP.
Qed.

Lemma computes_preserves {A C} (g : World -> C) (m : M A) a :
  computes m a -> preserves g m.
Proof. intros H w. destruct (H w) as (l & -> & _). reflexivity. Qed.

Lemma probes_app l1 l2 : probes (l1 ++ l2) = probes l1 ++ probes l2.
Proof. apply flat_map_app. Qed.

Lemma not_probe_probes l : forallb not_probe l = true -> probes l = [].
Proof.
  induction l as [|e l IH]; simpl; [reflexivity|].
  intros H. apply andb_true_iff in H. destruct H as [He Hl].
  destruct e; try discriminate; simpl; auto.
Qed.

Lemma quiet_not_probe e : is_quiet e = true -> not_probe e = true.
Proof. unfold is_quiet. intros H. apply andb_true_iff in H. tauto. Qed.

(** In the plan the accessor, when present, comes last and only there. *)
Lemma probe_plan_accessor_last h :
  if has_accessor h
  then exists l, probe_plan h = l ++ [ProbeGetUser] /\
                 existsb (probe_eqb ProbeGetUser) l = false
  else existsb (probe_eqb ProbeGetUser) (probe_plan h) = false.
Proof.
  unfold probe_plan, has_accessor.
  destruct (flutterObject h) as [[? ? [?|]]|],
           (townpass_message_channel h) as [[? ? [?|]]|],
           (webkit_TownPass h) as [sink|],
           (ReactNativeWebView_postMessage h),
           (TownPass h) as [[[?|] [?|]]|];
    try destruct (sink _); cbn; try reflexivity;
    match goal with
    | |- exists l, ?L = l ++ _ /\ _ => exists (removelast L)
    end; split; reflexivity.
Qed.

(** Unfold the two halves of a request and their [try] blocks. *)
Ltac blocks :=
  unfold registerListeners, sendRequests, attachFlutterObject, attachMessageChannel, probeFlutterObject,
    probeMessageChannel, probeWebkit, probeReactNative, probeTownPass,
    probeWindow, syncGetUser.

Ltac solve_nothrow := blocks; prims; nothrow_tac.
Ltac solve_preserves := blocks; prims; preserves_tac.

(** Move past one statement that cannot throw, in the events ([pass]) or in
    the world ([wpass]) of a sequence; [frame g] drops from [g]'s argument
    the statements that leave [g] alone. *)
Ltac pass :=
  rewrite events_bind;
  match goal with
  | |- context [result_of (?m ?w)] =>
      let H := fresh in
      assert (nothrow m) as H by solve_nothrow;
      let a := fresh "a" in
      destruct (H w) as [a ->]; clear H
  end;
  cbv beta iota.

Ltac wpass :=
  rewrite world_bind;
  match goal with
  | |- context [result_of (?m ?w)] =>
      let H := fresh in
      assert (nothrow m) as H by solve_nothrow;
      let a := fresh "a" in
      destruct (H w) as [a ->]; clear H
  end;
  cbv beta iota.

Ltac frame g :=
  repeat match goal with
         | |- context [g (world_of (?m ?w))] =>
             let H := fresh in
             assert (preserves g m) as H by solve_preserves;
             rewrite (H w); clear H
         end.

(** ** The engine *)

Section EngineProofs.

Variable E : Env.

Lemma cleanup_quiet : emits is_quiet (cleanup E).
Proof. prims. emits_tac. Qed.


Lemma cleanup_user : preserves user (cleanup E).
Proof. prims. preserves_tac. Qed.
Lemma cleanup_call_seq : preserves call_seq (cleanup E).
Proof. prims. preserves_tac. Qed.

Lemma handleIncomingRaw_quiet raw : emits is_quiet (handleIncomingRaw E raw).
Proof.
  unfold handleIncomingRaw. apply emits_bind.
  - eapply computes_emits; [reflexivity | apply parseIncoming_computes].
  - prims. emits_tac.
Qed.


Lemma new_call_run w :
  new_call w = (Ok (call_seq w), set_call_seq (S (call_seq w)) w, []).
Proof. reflexivity. Qed.

Lemma setTimeout_events ms w :
  events_of (setTimeout ms w) = [EvSetTimeout (S (timer_seq w)) ms].
Proof. reflexivity. Qed.

Lemma addEventListener_events t h w :
  events_of (addEventListener t h w) = [EvAttach t h].
Proof. reflexivity. Qed.

Lemma registerListeners_nothrow t : nothrow (registerListeners E t).
Proof. solve_nothrow. Qed.

Lemma registerListeners_not_probe t : emits not_probe (registerListeners E t).
Proof. blocks. prims. emits_tac. Qed.

Lemma attachFlutterObject_events c w :
  match flutterObject (host E) with
  | Some _ => In (EvAttach FlutterObject (EngineFn c FlutterHandler))
                (events_of (attachFlutterObject E c w))
  | None => True
  end.
Proof.
  unfold attachFlutterObject, log.
  destruct (flutterObject (host E)) as [caps|]; [|exact I].
  destruct (debug E), (has_addEventListener caps); cbn; auto.
Qed.

Lemma attachMessageChannel_events c w :
  match townpass_message_channel (host E) with
  | Some _ => In (EvAttach MessageChannel (EngineFn c ChannelHandler))
                (events_of (attachMessageChannel E c w))
  | None => True
  end.
Proof.
  unfold attachMessageChannel, log.
  destruct (townpass_message_channel (host E)) as [caps|]; [|exact I].
  destruct (debug E), (has_addEventListener caps); cbn; auto.
Qed.

(** An event of a sequence is one of a later statement ([skip]) or of the
    first one ([here]). *)
Ltac skip := pass; apply in_or_app; right.
Ltac here := rewrite events_bind; apply in_or_app; left.

Lemma registerListeners_attaches t w :
  let before := events_of (registerListeners E t w) in
  let c := call_seq w in
  In (EvAttach WindowMessage (EngineFn c GenericListener)) before /\
  In (EvAttach WindowTownpassUser (EngineFn c CustomListener)) before /\
  In (EvAttach CallbackSlot (EngineFn c OnTownPassUser)) before /\
  match flutterObject (host E) with
  | Some _ => In (EvAttach FlutterObject (EngineFn c FlutterHandler)) before
  | None => True
  end /\
  match townpass_message_channel (host E) with
  | Some _ => In (EvAttach MessageChannel (EngineFn c ChannelHandler)) before
  | None => True
  end /\
  In (EvSetTimeout (S (timer_seq w)) t) before.
Proof.
  intros before c. subst before c.
  assert (forall x,
    (forall w1, call_seq w1 = call_seq w -> timer_seq w1 = timer_seq w ->
       In x (events_of
         ((modify (set_listenerRef (Some (EngineFn (call_seq w1) GenericListener))) ;;
           addEventListener WindowMessage (EngineFn (call_seq w1) GenericListener) ;;
           addEventListener WindowTownpassUser (EngineFn (call_seq w1) CustomListener) ;;
           install_callback (EngineFn (call_seq w1) OnTownPassUser) ;;
           attachFlutterObject E (call_seq w1) ;;
           attachMessageChannel E (call_seq w1) ;;
           id <- setTimeout t ;;
           modify (set_timerRef (Some id))) (set_call_seq (S (call_seq w1)) w1)))) ->
    In x (events_of (registerListeners E t w))) as Hpre.
  { intros x Hx. unfold registerListeners.
    do 6 skip. rewrite events_bind, new_call_run. cbn [result_of events_of world_of fst snd app].
    apply Hx.
    - frame call_seq. reflexivity.
    - frame timer_seq. reflexivity. }
  repeat split.
  - apply Hpre. intros w1 Hc _. rewrite Hc. skip. here. left. reflexivity.
  - apply Hpre. intros w1 Hc _. rewrite Hc. do 2 skip. here. left. reflexivity.
  - apply Hpre. intros w1 Hc _. rewrite Hc. do 3 skip. here. left. reflexivity.
  - pose proof (attachFlutterObject_events (call_seq w)) as HF.
    destruct (flutterObject (host E)); [|exact I].
    apply Hpre. intros w1 Hc _. rewrite Hc. do 4 skip. here. apply HF.
  - pose proof (attachMessageChannel_events (call_seq w)) as HF.
    destruct (townpass_message_channel (host E)); [|exact I].
    apply Hpre. intros w1 Hc _. rewrite Hc. do 5 skip. here. apply HF.
  - apply Hpre. intros w1 Hc Ht. rewrite Hc. do 6 skip. here.
    rewrite setTimeout_events. left. f_equal. f_equal.
    frame timer_seq. exact Ht.
Qed.

Lemma emits_no_probes {A} (m : M A) w :
  emits not_probe m -> probes (events_of (m w)) = [].
Proof. intros H. apply not_probe_probes, H. Qed.

Lemma log_no_probes msg w : probes (events_of (log E msg w)) = [].
Proof. unfold log. destruct (debug E); reflexivity. Qed.

Lemma probeFlutterObject_probes w :
  probes (events_of (probeFlutterObject E w)) =
  match flutterObject (host E) with
  | Some {| postMessage := Some _ |} => [ProbeFlutter]
  | _ => []
  end.
Proof.
  unfold probeFlutterObject, log, call_sink.
  destruct (flutterObject (host E)) as [[a r [sink|]]|];
    destruct (debug E); try reflexivity;
    cbn; destruct (sink _); reflexivity.
Qed.

Lemma probeMessageChannel_probes w :
  probes (events_of (probeMessageChannel E w)) =
  match townpass_message_channel (host E) with
  | Some {| postMessage := Some _ |} => [ProbeChannel]
  | _ => []
  end.
Proof.
  unfold probeMessageChannel, log, call_sink.
  destruct (townpass_message_channel (host E)) as [[a r [sink|]]|];
    destruct (debug E); try reflexivity;
    cbn; destruct (sink _); reflexivity.
Qed.

Lemma probeWebkit_probes w :
  probes (events_of (probeWebkit E w)) =
  match webkit_TownPass (host E) with
  | Some sink =>
      if sink (JObj [("action", JStr "getUser")])
      then [ProbeWebkit; ProbeWebkit] else [ProbeWebkit]
  | None => []
  end.
Proof.
  unfold probeWebkit, log, call_sink.
  destruct (webkit_TownPass (host E)) as [sink|]; [|reflexivity].
  destruct (debug E); cbn;
    destruct (sink (JObj [("action", JStr "getUser")])); cbn; try reflexivity;
    destruct (sink (JStr "getUser")); reflexivity.
Qed.

Lemma probeReactNative_probes w :
  probes (events_of (probeReactNative E w)) =
  match ReactNativeWebView_postMessage (host E) with
  | Some _ => [ProbeReactNative]
  | None => []
  end.
Proof.
  unfold probeReactNative, log, call_sink.
  destruct (ReactNativeWebView_postMessage (host E)) as [sink|]; [|reflexivity].
  destruct (debug E); cbn; destruct (sink _); reflexivity.
Qed.

Lemma probeTownPass_probes w :
  probes (events_of (probeTownPass E w)) =
  match TownPass (host E) with
  | Some {| tp_postMessage := Some _ |} => [ProbeTownPass]
  | _ => []
  end.
Proof.
  unfold probeTownPass, log, call_sink.
  destruct (TownPass (host E)) as [[[sink|] g]|]; try reflexivity.
  destruct (debug E); cbn; destruct (sink _); reflexivity.
Qed.

Lemma probeWindow_probes w :
  probes (events_of (probeWindow E w)) = [ProbeWindow].
Proof. unfold probeWindow, log. destruct (debug E); reflexivity. Qed.

Lemma syncGetUser_probes w :
  probes (events_of (syncGetUser E w)) =
  match TownPass (host E) with
  | Some {| tp_getUser := Some _ |} => [ProbeGetUser]
  | _ => []
  end.
Proof.
  unfold syncGetUser.
  destruct (TownPass (host E)) as [[p [g|]]|]; try reflexivity.
  rewrite events_try, probes_app.
  match goal with
  | |- _ ++ probes (match ?r with Ok _ => _ | Throw _ => _ end) = _ =>
      replace (probes (match r with Ok _ => [] | Throw e => events_of (log E "sync getUser error" (world_of _)) end)) with (@nil Probe)
        by (destruct r; [reflexivity | symmetry; apply log_no_probes])
  end.
  rewrite app_nil_r.
  pass. rewrite probes_app, log_no_probes. simpl app.
  pass. rewrite probes_app. cbn [events_of emit snd probes flat_map app].
  f_equal. apply emits_no_probes.
  apply emits_bind; [apply emits_lift|]. intros res.
  destruct (truthy res); [|apply emits_ret].
  apply emits_bind; [prims; emits_tac|]. intros _.
  apply emits_bind.
  - apply (emits_weaken _ _ _ quiet_not_probe), handleIncomingRaw_quiet.
  - intros ok. destruct ok; [|apply emits_ret].
    apply (emits_weaken _ _ _ quiet_not_probe), cleanup_quiet.
Qed.

Lemma sendRequests_probes w :
  probes (events_of (sendRequests E w)) = probe_plan (host E).
Proof.
  unfold sendRequests, probe_plan.
  pass. rewrite probes_app, probeFlutterObject_probes. f_equal.
  pass. rewrite probes_app, probeMessageChannel_probes. f_equal.
  pass. rewrite probes_app, probeWebkit_probes. f_equal.
  pass. rewrite probes_app, probeReactNative_probes. f_equal.
  pass. rewrite probes_app, probeTownPass_probes. f_equal.
  pass. rewrite probes_app, probeWindow_probes. f_equal.
  pass. rewrite probes_app, syncGetUser_probes, log_no_probes.
  rewrite app_nil_r. reflexivity.
Qed.

Lemma request_events timeout w :
  events_of (requestTownPassUser E timeout w) =
  events_of (registerListeners E
               (match timeout with Some t => t | None => timeoutMs E end) w) ++
  events_of (sendRequests E
               (world_of (registerListeners E
                  (match timeout with Some t => t | None => timeoutMs E end)
                  w))).
Proof.
  unfold requestTownPassUser. rewrite events_bind.
  destruct (registerListeners_nothrow
              (match timeout with Some t => t | None => timeoutMs E end) w)
    as [a ->].
  reflexivity.
Qed.

Lemma handler_eqb_refl h : handler_eqb h h = true.
Proof.
  destruct h as [c k|i]; simpl; rewrite Nat.eqb_refl; [destruct k|];
    reflexivity.
Qed.







Lemma setTimeout_run ms w :
  setTimeout ms w
    = (Ok (S (timer_seq w)),
       set_timers (timers w ++ [(S (timer_seq w), ms)])
         (set_timer_seq (S (timer_seq w)) w),
       [EvSetTimeout (S (timer_seq w)) ms]).
Proof. reflexivity. Qed.



(** C8 (amended): the probes of a request are sent in one fixed order: the
    structured bridge object, the secondary channel, the native handlers
    (webkit, with its string fallback, ReactNativeWebView, TownPass), the
    window broadcast, and last the synchronous call of the host's accessor,
    when present. *)
Theorem probes_in_fixed_order timeout w :
  probes (events_of (requestTownPassUser E timeout w)) = probe_plan (host E) /\
  if has_accessor (host E)
  then exists l, probe_plan (host E) = l ++ [ProbeGetUser] /\
                 existsb (probe_eqb ProbeGetUser) l = false
  else existsb (probe_eqb ProbeGetUser) (probe_plan (host E)) = false.
Proof.
  split; [|apply probe_plan_accessor_last].
  rewrite request_events, probes_app, sendRequests_probes.
  rewrite emits_no_probes by apply registerListeners_not_probe.
  reflexivity.
Qed.

Lemma request_world timeout w :
  world_of (requestTownPassUser E timeout w) =
  world_of (sendRequests E
               (world_of (registerListeners E
                  (match timeout with Some t => t | None => timeoutMs E end)
                  w))).
Proof.
  unfold requestTownPassUser. rewrite world_bind.
  destruct (registerListeners_nothrow
              (match timeout with Some t => t | None => timeoutMs E end) w)
    as [a ->].
  reflexivity.
Qed.



Lemma log_run msg w : log E msg w = (Ok tt, w, events_of (log E msg w)).
Proof. unfold log. destruct (debug E); reflexivity. Qed.

Lemma handleIncomingRaw_run raw w :
  exists l,
    handleIncomingRaw E raw w =
      if truthy (normalize E source_order raw)
      then (Ok true,
            set_error None (set_isLoading false
              (set_user (normalize E source_order raw) w)), l)
      else (Ok false, w, l).
Proof.
  unfold handleIncomingRaw, bind at 1.
  destruct (parseIncoming_computes E raw w) as (l & -> & _).
  destruct (truthy (normalize E source_order raw)).
  - unfold log, setUser, setIsLoading, setError.
    destruct (debug E); cbn; eexists; reflexivity.
  - cbn. eexists; reflexivity.
Qed.


(** The probes by message leave the world as it is. *)
Lemma probes_keep_world w :
  world_of ((probeFlutterObject E ;; probeMessageChannel E ;; probeWebkit E ;;
             probeReactNative E ;; probeTownPass E ;; probeWindow E) w) = w.
Proof.
  assert (preserves (fun w0 : World => w0)
            (probeFlutterObject E ;; probeMessageChannel E ;; probeWebkit E ;;
             probeReactNative E ;; probeTownPass E ;; probeWindow E)) as H
    by solve_preserves.
  apply H.
Qed.





(** *** Resolution and the handlers of the two structured channels *)

(** The secondary channel's handler leaves a userid reply unrecognized,
    whatever the id. *)
Lemma channelHandler_ignores_userid id w :
  world_of (channelHandler E
              (MessageEvent (JObj [("name", JStr "userid"); ("data", id)])) w)
    = w.
Proof.
  unfold channelHandler, MessageEvent.
  cbn [opt_get lookup String.eqb Ascii.eqb Bool.eqb coalesce nullish].
  rewrite world_bind, log_run. cbn [result_of world_of fst snd].
  rewrite world_bind. cbn [ret result_of world_of fst snd].
  rewrite world_bind.
  destruct (handleIncomingRaw_run
              (JObj [("name", JStr "userid"); ("data", id)]) w) as (l & ->).
  reflexivity.
Qed.

(** The primary bridge's handler resolves it. *)
Lemma flutterHandler_userid id w :
  truthy id = true ->
  user (world_of (flutterHandler E
              (MessageEvent (JObj [("name", JStr "userid"); ("data", id)])) w))
    = JObj [("id", id)].
Proof.
  intros Hid.
  unfold flutterHandler, MessageEvent. simpl.
  rewrite world_bind, log_run. cbn [result_of world_of fst snd].
  rewrite world_bind. cbn [ret coalesce nullish result_of world_of fst snd].
  rewrite world_bind, log_run. cbn [result_of world_of fst snd].
  simpl. rewrite Hid.
  rewrite world_bind. cbn [lift result_of world_of fst snd].
  rewrite world_bind, log_run. cbn [result_of world_of fst snd].
  rewrite world_bind.
  destruct (handleIncomingRaw_run (JObj [("id", id)]) w) as (l & ->).
  assert (normalize E source_order (JObj [("id", id)]) = JObj [("id", id)])
    as ->.
  { unfold normalize, first_shape. simpl. rewrite Hid. reflexivity. }
  cbn [truthy result_of world_of fst snd].
  rewrite cleanup_user. reflexivity.
Qed.

(** *** What [cleanup] leaves attached *)

Lemma cleanup_keeps_townpass_user_listeners :
  preserves (attached WindowTownpassUser) (cleanup E).
Proof. solve_preserves. Qed.

Lemma cleanup_keeps_flutter_listeners :
  preserves (attached FlutterObject) (cleanup E).
Proof. solve_preserves. Qed.

(** *** The callback slot *)

Lemma bind_gets {A B} (f : World -> A) (k : A -> M B) w :
  bind (gets f) k w = k (f w) w.
Proof.
  unfold bind, gets. destruct (k (f w) w) as [[r w2] l2]. reflexivity.
Qed.







Lemma emits_no_logs {A} (m : M A) w :
  emits not_log m -> logs (events_of (m w)) = [].
Proof.
  intros H. specialize (H w).
  induction (events_of (m w)) as [|e l IH]; [reflexivity|].
  simpl in H. apply andb_true_iff in H. destruct H as [He Hl].
  destruct e; try discriminate; simpl; auto.
Qed.







End EngineProofs.





(** C8, as stated, fails: against a host that exposes every mechanism the
    synchronous accessor is called after all the other probes, not first. *)
Lemma accessor_not_first_counterexample :
  has_accessor full_host = true /\
  probes (events_of full_request)
    = [ProbeFlutter; ProbeChannel; ProbeWebkit; ProbeReactNative;
       ProbeTownPass; ProbeWindow; ProbeGetUser] /\
  accessor_first (probes (events_of full_request)) = false.
Proof. repeat split. Qed.

(** C2: the code breaks the claim.  [cleanup] never detaches the
    [townpass:user] listener nor the listener of the primary bridge object;
    so after a request has been resolved with [u1] by a window message, its
    [townpass:user] listener is still attached, and a later event carrying
    [u2] replaces the resolved user. *)
Theorem late_payload_changes_resolved_user :
  (forall E w,
      attached WindowTownpassUser (world_of (cleanup E w))
        = attached WindowTownpassUser w /\
      attached FlutterObject (world_of (cleanup E w))
        = attached FlutterObject w) /\
  user resolved_world = u1 /\
  isLoading resolved_world = false /\
  error resolved_world = None /\
  timers resolved_world = [] /\
  attached WindowMessage resolved_world = [] /\
  attached CallbackSlot resolved_world = [] /\
  attached WindowTownpassUser resolved_world = [EngineFn 0 CustomListener] /\
  user late_event_world = u2.
Proof.
  split.
  - intros E w. split.
    + apply cleanup_keeps_townpass_user_listeners.
    + apply cleanup_keeps_flutter_listeners.
  - repeat split.
Qed.

(** C6: the code breaks the claim.  A second request while the first is
    open returns normally, clears the first timer and detaches the first
    window message listener and callback, but the first request's
    [townpass:user] listener and its listeners on the two bridge channels
    stay attached next to the second's; a later [townpass:user] event is
    handled by both requests' listeners. *)
Theorem superseded_request_listeners_remain :
  result_of second_request = Ok tt /\
  timers (world_of second_request) = [(2, 3000%Z)] /\
  attached WindowMessage (world_of second_request)
    = [EngineFn 1 GenericListener] /\
  attached CallbackSlot (world_of second_request)
    = [EngineFn 1 OnTownPassUser] /\
  attached WindowTownpassUser (world_of second_request)
    = [EngineFn 0 CustomListener; EngineFn 1 CustomListener] /\
  attached FlutterObject (world_of second_request)
    = [EngineFn 0 FlutterHandler; EngineFn 1 FlutterHandler] /\
  attached MessageChannel (world_of second_request)
    = [EngineFn 0 ChannelHandler; EngineFn 1 ChannelHandler] /\
  set_users (events_of event_after_second_request) = [u1; u1].
Proof. repeat split. Qed.

(** C7: the code breaks the claim.  The handler of the secondary channel
    hands the whole reply to [parseIncoming], which has no [userid] shape:
    a reply [{name: "userid", data: id}] changes nothing, whatever the id,
    although the engine probes that channel with a [userid] command.  The
    handler of the primary bridge object resolves the same reply with the
    record [{id}]. *)
Theorem secondary_channel_ignores_userid :
  (forall E id w,
      world_of (channelHandler E
                  (MessageEvent
                     (JObj [("name", JStr "userid"); ("data", id)])) w)
        = w) /\
  (forall E id w,
      truthy id = true ->
      user (world_of (flutterHandler E
                        (MessageEvent
                           (JObj [("name", JStr "userid"); ("data", id)])) w))
        = JObj [("id", id)]) /\
  probes (events_of channel_request) = [ProbeChannel; ProbeWindow] /\
  In (EvProbe ProbeChannel
        (JStr (stringify_plain
                 (JObj [("name", JStr "userid"); ("data", JNull)]))))
     (events_of channel_request) /\
  attached MessageChannel (world_of channel_request)
    = [EngineFn 0 ChannelHandler] /\
  user channel_replied = JNull /\
  isLoading channel_replied = true /\
  user flutter_replied = u2 /\
  isLoading flutter_replied = false.
Proof.
  split; [exact channelHandler_ignores_userid|].
  split; [exact flutterHandler_userid|].
  repeat split. vm_compute. tauto.
Qed.

(** The userid reply of the specification's scenario on the primary
    bridge. *)
Lemma flutter_userid_witness :
  user (world_of (flutterHandler flutter_env (MessageEvent userid_reply)
                    initial_world)) = u2.
Proof.
  apply (proj1 (proj2 secondary_channel_ignores_userid)
           flutter_env (JStr "u2") initial_world eq_refl).
Defined.

(** ** The session exchange *)

(** C9 (amended): [loginWithTownPass] sends one POST to the configured
    endpoint (["/api/auth/townpass"] by default) with credentials included
    and the JSON body [{"townpass_user": identity}], and never a second
    request.  A response that is not 2xx rejects with an error carrying the
    status and the body text, and [isAuthenticated] is false afterwards; so
    does a rejected fetch.  A 2xx response with a JSON body resolves with
    the decoded body and sets [isAuthenticated]; a 2xx response whose body
    is not JSON rejects and leaves [isAuthenticated] false. *)
Theorem loginWithTownPass_exchange :
  forall (E : Env) (u : JsVal) (w : World),
    let o := loginWithTownPass E u w in
    let req := login_request E u in
    fetches (events_of o) = [req] /\
    req_url req = authEndpoint E /\
    authEndpoint E =
      match opts E with
      | Some {| opt_authEndpoint := Some s |} => s
      | _ => "/api/auth/townpass"
      end /\
    req_method req = "POST" /\
    req_credentials req = "include" /\
    req_body req = JSON_stringify E (JObj [("townpass_user", u)]) /\
    match fetch E req with
    | Rejected e =>
        result_of o = Throw e /\
        isAuthenticated (world_of o) = false /\
        error (world_of o) = Some (exn_message e)
    | Responded r =>
        if res_ok r
        then
          match json_body E r with
          | Some data =>
              result_of o = Ok data /\
              isAuthenticated (world_of o) = true /\
              isLoading (world_of o) = false /\
              error (world_of o) = None
          | None =>
              (exists e, result_of o = Throw e) /\
              isAuthenticated (world_of o) = false
          end
        else
          result_of o =
            Throw (JsError ("Backend auth failed " ++
                            number_to_string (res_status r) ++ " " ++
                            res_text_or_empty r)) /\
          isAuthenticated (world_of o) = false /\
          isLoading (world_of o) = false /\
          error (world_of o) =
            Some ("Backend auth failed " ++
                  number_to_string (res_status r) ++ " " ++
                  res_text_or_empty r)%string
    end.
Proof.
  intros E u w o req. subst o req.
  assert (authEndpoint E =
          match opts E with
          | Some {| opt_authEndpoint := Some s |} => s
          | _ => "/api/auth/townpass"
          end) as Hend.
  { unfold authEndpoint. destruct (opts E) as [[? ? [?|]]|]; reflexivity. }
  unfold loginWithTownPass, res_json, json_body, log, setIsLoading, setError,
    setIsAuthenticated.
  cbv [try_catch bind emit modify ret throw].
  destruct (debug E);
    (destruct (fetch E (login_request E u)) as [e|r];
     [ cbn; repeat split; assumption || reflexivity |]);
    (destruct (res_ok r); cbv [negb];
     [ destruct (res_body r) as [s|];
       [ destruct (JSON_parse E s) |] |]);
    cbn -[number_to_string append];
    repeat split; try assumption; try reflexivity; eexists; reflexivity.
Qed.

(** C9, as stated, fails: a 200 response whose body is not JSON rejects,
    and [isAuthenticated] stays false. *)
Lemma login_2xx_without_json_counterexample :
  res_ok ok_not_json = true /\
  fetch (test_env no_host ok_not_json)
    (login_request (test_env no_host ok_not_json) u1)
    = Responded ok_not_json /\
  result_of (loginWithTownPass (test_env no_host ok_not_json) u1
               initial_world) = Throw (JsError "SyntaxError") /\
  isAuthenticated
    (world_of (loginWithTownPass (test_env no_host ok_not_json) u1
                 initial_world)) = false.
Proof. repeat split. Qed.

(** The scenario of the specification: a backend answering 401. *)
Example login_unauthorized :
  result_of (loginWithTownPass plain_env u1 initial_world)
    = Throw (JsError "Backend auth failed 401 denied") /\
  isAuthenticated (world_of (loginWithTownPass plain_env u1 initial_world))
    = false.
Proof. repeat split. Qed.

(** ** The scenarios of the specification *)

(** A userinfo reply with JSON text on the structured bridge resolves with
    the decoded identity. *)
Example flutter_userinfo_scenario :
  user (world_of
          ((requestTownPassUser flutter_env None ;;
            deliver flutter_env FlutterObject
              (MessageEvent
                 (JObj [("name", JStr "userinfo"); ("data", JStr ada_json)])))
             initial_world)) = ada.
Proof. reflexivity. Qed.

(** No host response before the default timeout: the timer armed for 3000 ms
    fires, the error is the timeout and the identity is still [null]. *)
Example timeout_scenario :
  timers open_world = [(1, 3000%Z)] /\
  error (world_of (fire_timer plain_env 1 open_world))
    = Some "TownPass authentication timeout" /\
  isLoading (world_of (fire_timer plain_env 1 open_world)) = false /\
  user (world_of (fire_timer plain_env 1 open_world)) = JNull /\
  timers (world_of (fire_timer plain_env 1 open_world)) = [].
Proof. repeat split. Qed.

(* ===================================================================== *)
(** * Teardown, resolution and the invariants of the engine *)
(* ===================================================================== *)

(** ** Statements that return *)

Lemma returns_ret {A} (a : A) w : returns (ret a) w a w.
Proof. exists []. reflexivity. Qed.
Lemma returns_emit e w : returns (emit e) w tt w.
Proof. eexists. reflexivity. Qed.
Lemma returns_modify f w : returns (modify f) w tt (f w).
Proof. eexists. reflexivity. Qed.
Lemma returns_gets {A} (f : World -> A) w : returns (gets f) w (f w) w.
Proof. eexists. reflexivity. Qed.
Lemma returns_lift {A} (a : A) w : returns (lift (Ok a)) w a w.
Proof. eexists. reflexivity. Qed.
Lemma returns_bind {A B} (m : M A) (f : A -> M B) w a w1 b w2 :
  returns m w a w1 -> returns (f a) w1 b w2 -> returns (bind m f) w b w2.
Proof.
  intros (l1 & H1) (l2 & H2). exists (l1 ++ l2).
  unfold bind. rewrite H1, H2. reflexivity.
Qed.
Lemma returns_try {A} (m : M A) (h : Exn -> M A) w a w1 :
  returns m w a w1 -> returns (try_catch m h) w a w1.
Proof. intros (l1 & H1). exists l1. unfold try_catch. rewrite H1. reflexivity. Qed.
Lemma returns_result {A} (m : M A) w a w' :
  returns m w a w' -> result_of (m w) = Ok a.
Proof. intros (l & ->). reflexivity. Qed.
Lemma returns_world {A} (m : M A) w a w' :
  returns m w a w' -> world_of (m w) = w'.
Proof. intros (l & ->). reflexivity. Qed.

Section Behaviour.
Variable E : Env.
Lemma returns_log msg w : returns (log E msg) w tt w.
Proof. unfold log. destruct (debug E); eexists; reflexivity. Qed.

Lemma cleanup_returns w : returns (cleanup E) w tt (cleanup_world E w).
Proof.
  unfold returns, cleanup, cleanup_world, log, clearTimeout,
    removeEventListener, delete_callback.
  cbv [bind gets modify emit ret try_catch].
  destruct w as [u il er ia tr lr clr cr ml tul slot fl fo cl co ti ts cs].
  cbn.
  destruct (debug E);
    destruct tr as [[|id]|]; cbn;
    destruct lr as [h|]; cbn;
    destruct clr as [c|]; cbn;
    destruct (townpass_message_channel (host E)) as [[a r p]|]; cbn;
    try destruct r; cbn;
    try destruct (opt_handler_eqb co c); cbn;
    destruct slot; cbn; eexists; reflexivity.
Qed.

Lemma handleIncomingRaw_returns raw w :
  returns (handleIncomingRaw E raw) w
    (truthy (normalize E source_order raw))
    (if truthy (normalize E source_order raw)
     then set_error None (set_isLoading false
            (set_user (normalize E source_order raw) w))
     else w).
Proof.
  destruct (handleIncomingRaw_run E raw w) as (l & H).
  exists l. rewrite H.
  destruct (truthy (normalize E source_order raw)); reflexivity.
Qed.

(** Giving [raw] to [handleIncomingRaw] and tearing down on success. *)
Lemma resolve_returns raw w :
  returns (ok <- handleIncomingRaw E raw ;; if ok then cleanup E else ret tt)
    w tt (resolve_world E raw w).
Proof.
  eapply returns_bind; [apply handleIncomingRaw_returns|].
  unfold resolve_world.
  destruct (truthy (normalize E source_order raw)).
  - apply cleanup_returns.
  - apply returns_ret.
Qed.

Lemma genericListener_returns raw w :
  returns (genericListener E (MessageEvent raw)) w tt (resolve_world E raw w).
Proof.
  unfold genericListener.
  eapply returns_bind; [apply returns_lift|].
  eapply returns_bind; [apply returns_log|].
  apply resolve_returns.
Qed.

Lemma customListener_returns raw w :
  returns (customListener E (CustomEvent raw)) w tt (resolve_world E raw w).
Proof.
  unfold customListener.
  eapply returns_bind; [apply returns_lift|].
  eapply returns_bind; [apply returns_log|].
  apply resolve_returns.
Qed.

Lemma onTownPassUserCallback_returns raw w :
  returns (onTownPassUserCallback E raw) w tt (resolve_world E raw w).
Proof.
  unfold onTownPassUserCallback.
  eapply returns_bind; [apply returns_log|].
  apply resolve_returns.
Qed.

Lemma tryParse_returns s w :
  returns (tryParse E s) w
    (match JSON_parse E s with Some v => v | None => JNull end) w.
Proof.
  unfold returns, tryParse, JSON_parse_call.
  cbv [try_catch bind emit ret throw].
  destruct (JSON_parse E s); eexists; reflexivity.
Qed.

Lemma channelHandler_returns ev w :
  returns (channelHandler E ev) w tt (resolve_world E (channel_input E ev) w).
Proof.
  unfold channelHandler, channel_input.
  eapply returns_bind; [apply returns_log|].
  eapply returns_bind; [|apply resolve_returns].
  destruct (coalesce (opt_get ev "data") ev) eqn:D; try apply returns_ret.
  eapply returns_bind; [apply tryParse_returns|].
  destruct (JSON_parse E s); apply returns_ret.
Qed.

Lemma flutterHandler_returns ev w :
  returns (flutterHandler E ev) w tt
    (match flutter_input E ev with
     | Some raw => resolve_world E raw w
     | None => w
     end).
Proof.
  unfold flutterHandler, flutter_input.
  eapply returns_bind; [apply returns_log|].
  eapply returns_bind with (a := flutter_command E ev) (w1 := w).
  { unfold flutter_command.
    destruct (coalesce (opt_get ev "data") ev) eqn:D; try apply returns_ret.
    unfold returns, JSON_parse_call, log.
    cbv [try_catch bind emit ret throw].
    destruct (JSON_parse E s), (debug E); eexists; reflexivity. }
  eapply returns_bind; [apply returns_log|].
  set (data := flutter_command E ev).
  destruct (str_is (opt_get data "name") "userinfo" && truthy (opt_get data "data")) eqn:C1.
  - apply andb_true_iff in C1. destruct C1 as [_ T].
    eapply returns_bind.
    { rewrite get_not_nullish; [apply returns_lift|].
      destruct data; try discriminate; reflexivity. }
    eapply returns_bind; [apply returns_log|].
    apply resolve_returns.
  - destruct (str_is (opt_get data "name") "userid" && truthy (opt_get data "data")) eqn:C2.
    + apply andb_true_iff in C2. destruct C2 as [_ T].
      eapply returns_bind.
      { rewrite get_not_nullish; [apply returns_lift|].
        destruct data; try discriminate; reflexivity. }
      eapply returns_bind; [apply returns_log|].
      apply resolve_returns.
    + apply returns_ret.
Qed.


(** *** The components of the world [cleanup] leaves *)

Ltac cleanup_cases w :=
  unfold cleanup_world;
  destruct w as [u il er ia tr lr clr cr ml tul slot fl fo cl co ti ts cs];
  cbn;
  destruct tr as [[|?]|]; cbn;
  destruct lr; cbn;
  destruct clr; cbn;
  destruct (townpass_message_channel (host E)) as [[? [] ?]|]; cbn;
  try match goal with
      | |- context [opt_handler_eqb ?a ?b] => destruct (opt_handler_eqb a b)
      end; cbn;
  destruct slot; cbn; try reflexivity.

Lemma cleanup_world_timers w :
  timers (cleanup_world E w) =
  match timerRef w with
  | Some id =>
      if Nat.eqb id 0 then timers w
      else filter (fun t => negb (Nat.eqb (fst t) id)) (timers w)
  | None => timers w
  end.
Proof. cleanup_cases w. Qed.

Lemma cleanup_world_timerRef w :
  timerRef (cleanup_world E w) =
  match timerRef w with
  | Some id => if Nat.eqb id 0 then Some id else None
  | None => None
  end.
Proof. cleanup_cases w. Qed.

Lemma cleanup_world_message_listeners w :
  message_listeners (cleanup_world E w) =
  match listenerRef w with
  | Some h => remove_listener h (message_listeners w)
  | None => message_listeners w
  end.
Proof. cleanup_cases w. Qed.

Lemma cleanup_world_listenerRef w : listenerRef (cleanup_world E w) = None.
Proof. cleanup_cases w. Qed.

Lemma cleanup_world_channelListenerRef w :
  channelListenerRef (cleanup_world E w) = None.
Proof. cleanup_cases w. Qed.

Lemma cleanup_world_onTownPassUser w :
  onTownPassUser (cleanup_world E w) =
  match onTownPassUser w with
  | SlotFn _ => SlotAbsent
  | s => s
  end.
Proof. cleanup_cases w. Qed.

Lemma cleanup_world_state w :
  user (cleanup_world E w) = user w /\
  isLoading (cleanup_world E w) = isLoading w /\
  error (cleanup_world E w) = error w /\
  isAuthenticated (cleanup_world E w) = isAuthenticated w.
Proof. cleanup_cases w; repeat split. Qed.

Lemma unit_result (r : Result unit) : (exists a, r = Ok a) -> r = Ok tt.
Proof. intros ([] & ->). reflexivity. Qed.

Lemma sendRequests_nothrow : nothrow (sendRequests E).
Proof. solve_nothrow. Qed.

Lemma onTimeout_returns w :
  returns (onTimeout E) w tt
    (cleanup_world E
       (set_error (Some "TownPass authentication timeout")
          (set_isLoading false w))).
Proof.
  unfold onTimeout, setIsLoading, setError.
  eapply returns_bind; [apply returns_log|].
  eapply returns_bind;
    [eapply returns_bind; [apply returns_emit | apply returns_modify]|].
  eapply returns_bind;
    [eapply returns_bind; [apply returns_emit | apply returns_modify]|].
  apply cleanup_returns.
Qed.

Lemma fire_timer_returns id w :
  returns (fire_timer E id) w tt
    (if existsb (fun t => Nat.eqb (fst t) id) (timers w)
     then cleanup_world E
            (set_error (Some "TownPass authentication timeout")
               (set_isLoading false
                  (set_timers
                     (filter (fun t => negb (Nat.eqb (fst t) id)) (timers w))
                     w)))
     else w).
Proof.
  unfold fire_timer.
  eapply returns_bind; [apply returns_gets|].
  cbv beta.
  destruct (existsb (fun t => Nat.eqb (fst t) id) (timers w)).
  - eapply returns_bind; [apply returns_modify|]. apply onTimeout_returns.
  - apply returns_ret.
Qed.

Lemma reset_returns w :
  returns (reset E) w tt
    (set_error None
       (set_isLoading false
          (set_isAuthenticated false
             (set_user JNull (cleanup_world E w))))).
Proof.
  unfold reset, setUser, setIsAuthenticated, setIsLoading, setError.
  eapply returns_bind; [apply cleanup_returns|].
  repeat (eapply returns_bind;
          [eapply returns_bind; [apply returns_emit | apply returns_modify]|]).
  eapply returns_bind; [apply returns_emit | apply returns_modify].
Qed.

(** X1: the engine never throws into its caller: a request returns normally
    whatever the host's methods do, and so do [reset], an expiring timer and
    every handler of the engine, whatever payload it is handed. *)
Theorem engine_never_throws :
  (forall timeout w, result_of (requestTownPassUser E timeout w) = Ok tt) /\
  (forall w, result_of (reset E w) = Ok tt) /\
  (forall id w, result_of (fire_timer E id w) = Ok tt) /\
  (forall raw w, result_of (genericListener E (MessageEvent raw) w) = Ok tt) /\
  (forall raw w, result_of (customListener E (CustomEvent raw) w) = Ok tt) /\
  (forall raw w, result_of (onTownPassUserCallback E raw w) = Ok tt) /\
  (forall ev w, result_of (flutterHandler E ev w) = Ok tt) /\
  (forall ev w, result_of (channelHandler E ev w) = Ok tt).
Proof.
  repeat split; intros.
  - apply unit_result. unfold requestTownPassUser.
    apply nothrow_bind; [apply registerListeners_nothrow|].
    intros _. apply sendRequests_nothrow.
  - eapply returns_result, reset_returns.
  - eapply returns_result, fire_timer_returns.
  - eapply returns_result, genericListener_returns.
  - eapply returns_result, customListener_returns.
  - eapply returns_result, onTownPassUserCallback_returns.
  - eapply returns_result, flutterHandler_returns.
  - eapply returns_result, channelHandler_returns.
Qed.

Lemma kind_eqb_sym a b : kind_eqb a b = kind_eqb b a.
Proof. destruct a, b; reflexivity. Qed.

Lemma handler_eqb_sym a b : handler_eqb a b = handler_eqb b a.
Proof.
  destruct a, b; simpl; try reflexivity.
  - rewrite Nat.eqb_sym, kind_eqb_sym. reflexivity.
  - apply Nat.eqb_sym.
Qed.

Lemma existsb_remove_listener h l :
  existsb (handler_eqb h) (remove_listener h l) = false.
Proof.
  induction l as [|x l IH]; [reflexivity|].
  simpl. destruct (handler_eqb x h) eqn:X; simpl; [exact IH|].
  rewrite handler_eqb_sym, X. exact IH.
Qed.

Lemma not_in_cleared id ms (l : list (nat * Z)) :
  ~ In (id, ms) (filter (fun t => negb (Nat.eqb (fst t) id)) l).
Proof.
  intros H. apply filter_In in H. destruct H as [_ H].
  simpl in H. rewrite Nat.eqb_refl in H. discriminate.
Qed.

(** What teardown closes, whatever the world it starts from. *)
Lemma cleanup_world_closes w :
  listenerRef (cleanup_world E w) = None /\
  channelListenerRef (cleanup_world E w) = None /\
  attached CallbackSlot (cleanup_world E w) = [] /\
  (forall h, listenerRef w = Some h ->
             is_attached WindowMessage h (cleanup_world E w) = false) /\
  (forall id ms, timerRef w = Some id -> id <> 0 ->
                 timerRef (cleanup_world E w) = None /\
                 ~ In (id, ms) (timers (cleanup_world E w))).
Proof.
  split; [apply cleanup_world_listenerRef|].
  split; [apply cleanup_world_channelListenerRef|].
  split; [|split].
  - unfold attached. rewrite cleanup_world_onTownPassUser.
    destruct (onTownPassUser w); reflexivity.
  - intros h H. unfold is_attached, attached.
    rewrite cleanup_world_message_listeners, H.
    apply existsb_remove_listener.
  - intros id ms H N.
    rewrite cleanup_world_timerRef, cleanup_world_timers, H.
    destruct (Nat.eqb_spec id 0) as [->|_]; [congruence|].
    split; [reflexivity | apply not_in_cleared].
Qed.

(** X2: a payload the normalizer recognizes, on the window's [message]
    event, on the [townpass:user] event or through the callback, resolves
    the request and closes it: the user is the normalized payload, loading
    is off, the error is cleared, the session flag is left alone, the window
    message listener and the callback are removed and the timeout is
    cancelled. *)
Theorem recognized_payload_resolves raw w :
  truthy (normalize E source_order raw) = true ->
  forall m,
    In m [genericListener E (MessageEvent raw);
          customListener E (CustomEvent raw);
          onTownPassUserCallback E raw] ->
    result_of (m w) = Ok tt /\
    user (world_of (m w)) = normalize E source_order raw /\
    isLoading (world_of (m w)) = false /\
    error (world_of (m w)) = None /\
    isAuthenticated (world_of (m w)) = isAuthenticated w /\
    listenerRef (world_of (m w)) = None /\
    attached CallbackSlot (world_of (m w)) = [] /\
    (forall h, listenerRef w = Some h ->
               is_attached WindowMessage h (world_of (m w)) = false) /\
    (forall id ms, timerRef w = Some id -> id <> 0 ->
                   timerRef (world_of (m w)) = None /\
                   ~ In (id, ms) (timers (world_of (m w)))).
Proof.
  intros T m Hm.
  assert (returns m w tt (resolve_world E raw w)) as R.
  { simpl in Hm. destruct Hm as [<-|[<-|[<-|[]]]].
    - apply genericListener_returns.
    - apply customListener_returns.
    - apply onTownPassUserCallback_returns. }
  rewrite (returns_result _ _ _ _ R), (returns_world _ _ _ _ R).
  unfold resolve_world. rewrite T.
  set (w1 := set_error None
               (set_isLoading false
                  (set_user (normalize E source_order raw) w))).
  destruct (cleanup_world_state w1) as (U & L & Er & A).
  destruct (cleanup_world_closes w1) as (C1 & _ & C3 & C4 & C5).
  rewrite U, L, Er, A.
  do 7 (split; [reflexivity || assumption|]).
  split; [exact C4 | exact C5].
Qed.

(** X3: a payload the normalizer does not recognize, on the same three
    channels, is ignored: the handler returns and the world is as it was,
    the request still open. *)
Theorem unrecognized_payload_ignored raw w :
  truthy (normalize E source_order raw) = false ->
  forall m,
    In m [genericListener E (MessageEvent raw);
          customListener E (CustomEvent raw);
          onTownPassUserCallback E raw] ->
    result_of (m w) = Ok tt /\ world_of (m w) = w.
Proof.
  intros T m Hm.
  assert (returns m w tt (resolve_world E raw w)) as R.
  { simpl in Hm. destruct Hm as [<-|[<-|[<-|[]]]].
    - apply genericListener_returns.
    - apply customListener_returns.
    - apply onTownPassUserCallback_returns. }
  rewrite (returns_result _ _ _ _ R), (returns_world _ _ _ _ R).
  unfold resolve_world. rewrite T. split; reflexivity.
Qed.

Lemma existsb_cleared id (l : list (nat * Z)) :
  existsb (fun t => Nat.eqb (fst t) id)
    (filter (fun t => negb (Nat.eqb (fst t) id)) l) = false.
Proof.
  induction l as [|x l IH]; [reflexivity|].
  simpl. destruct (Nat.eqb (fst x) id) eqn:X; simpl; [exact IH|].
  rewrite X. exact IH.
Qed.

(** X4: teardown cancels the pending timeout: after [cleanup] the timer the
    hook remembered is gone and forgotten, and its expiry does nothing. *)
Theorem cleanup_cancels_timeout w id :
  timerRef w = Some id -> id <> 0 ->
  timerRef (world_of (cleanup E w)) = None /\
  (forall ms, ~ In (id, ms) (timers (world_of (cleanup E w)))) /\
  fire_timer E id (world_of (cleanup E w))
    = (Ok tt, world_of (cleanup E w), []).
Proof.
  intros H N.
  rewrite (returns_world _ _ _ _ (cleanup_returns w)).
  destruct (cleanup_world_closes w) as (_ & _ & _ & _ & C).
  split; [|split].
  - apply (C id 0%Z H N).
  - intros ms. apply (C id ms H N).
  - unfold fire_timer. rewrite bind_gets, cleanup_world_timers, H.
    destruct (Nat.eqb_spec id 0) as [->|_]; [congruence|].
    rewrite existsb_cleared. reflexivity.
Qed.

Lemma cleanup_world_cleanedRef w : cleanedRef (cleanup_world E w) = true.
Proof. cleanup_cases w. Qed.

(** A world with nothing to tear down is left as it is. *)
Lemma cleanup_world_fixed w :
  cleanedRef w = true ->
  timerRef w = None \/ timerRef w = Some 0 ->
  listenerRef w = None ->
  channelListenerRef w = None ->
  attached CallbackSlot w = [] ->
  cleanup_world E w = w.
Proof.
  destruct w as [u il er ia tr lr clr cr ml tul slot fl fo cl co ti ts cs].
  cbn. intros -> T -> -> S. unfold cleanup_world.
  destruct T as [-> | ->]; cbn; destruct slot; try discriminate; reflexivity.
Qed.

(** X5: [cleanup] is idempotent: a second teardown returns as well and
    changes nothing. *)
Theorem cleanup_idempotent w :
  result_of (cleanup E (world_of (cleanup E w))) = Ok tt /\
  world_of (cleanup E (world_of (cleanup E w))) = world_of (cleanup E w).
Proof.
  rewrite (returns_world _ _ _ _ (cleanup_returns w)).
  rewrite (returns_world _ _ _ _ (cleanup_returns _)).
  rewrite (returns_result _ _ _ _ (cleanup_returns _)).
  split; [reflexivity|].
  apply cleanup_world_fixed.
  - apply cleanup_world_cleanedRef.
  - rewrite cleanup_world_timerRef.
    destruct (timerRef w) as [[|id]|]; auto.
  - apply cleanup_world_listenerRef.
  - apply cleanup_world_channelListenerRef.
  - apply cleanup_world_closes.
Qed.

(** *** Every handler hands one value to the resolution, or nothing *)

(** A handler returns, having resolved with some value or changed nothing,
    or throws before changing anything. *)
Lemma run_handler_outcome h arg w :
  (exists raw, returns (run_handler E h arg) w tt (resolve_world E raw w)) \/
  (exists e l, run_handler E h arg w = (Throw e, w, l)).
Proof.
  destruct h as [c k|i]; [destruct k|]; simpl.
  - destruct (nullish arg) eqn:N.
    + right. destruct arg; try discriminate; cbn; eauto.
    + left. exists (opt_get arg "data"). unfold genericListener.
      rewrite (get_not_nullish _ _ N).
      eapply returns_bind; [apply returns_lift|].
      eapply returns_bind; [apply returns_log|].
      apply resolve_returns.
  - destruct (nullish arg) eqn:N.
    + right. destruct arg; try discriminate; cbn; eauto.
    + left. exists (opt_get arg "detail"). unfold customListener.
      rewrite (get_not_nullish _ _ N).
      eapply returns_bind; [apply returns_lift|].
      eapply returns_bind; [apply returns_log|].
      apply resolve_returns.
  - left. exists arg. apply onTownPassUserCallback_returns.
  - left. pose proof (flutterHandler_returns arg w) as R.
    destruct (flutter_input E arg) as [raw|].
    + exists raw. exact R.
    + exists JNull. exact R.
  - left. eexists. apply channelHandler_returns.
  - left. exists JNull. apply returns_ret.
Qed.

(** A property of the world that resolution keeps is kept by every
    dispatch of an event to the listeners of a target. *)
Lemma run_listeners_keeps (I : World -> Prop) :
  (forall raw w, I w -> I (resolve_world E raw w)) ->
  forall t hs arg w,
    I w ->
    exists w', returns (run_listeners E t hs arg) w tt w' /\ I w'.
Proof.
  intros HI t hs arg. induction hs as [|h hs IH]; intros w Hw.
  - exists w. split; [apply returns_ret | exact Hw].
  - cbn [run_listeners].
    assert (exists w1,
              returns (if is_attached t h w
                       then try_catch (run_handler E h arg) (fun _ => ret tt)
                       else ret tt) w tt w1 /\ I w1) as (w1 & R1 & I1).
    { destruct (is_attached t h w).
      - destruct (run_handler_outcome h arg w) as [(raw & R)|(e & l & R)].
        + eexists. split; [apply returns_try, R | apply HI, Hw].
        + exists w. split; [|exact Hw].
          exists (l ++ []). unfold try_catch. rewrite R. reflexivity.
      - exists w. split; [apply returns_ret | exact Hw]. }
    destruct (IH w1 I1) as (w2 & R2 & I2).
    exists w2. split; [|exact I2].
    eapply returns_bind; [apply returns_gets|].
    eapply returns_bind; [exact R1 | exact R2].
Qed.

Lemma deliver_keeps (I : World -> Prop) :
  (forall raw w, I w -> I (resolve_world E raw w)) ->
  forall t arg w,
    I w ->
    exists w', returns (deliver E t arg) w tt w' /\ I w'.
Proof.
  intros HI t arg w Hw.
  destruct (run_listeners_keeps I HI t (attached t w) arg w Hw)
    as (w' & R & I').
  exists w'. split; [|exact I'].
  unfold deliver. eapply returns_bind; [apply returns_gets | exact R].
Qed.

(** The synchronous accessor resolves with its result or changes nothing. *)
Lemma syncGetUser_returns w :
  exists raw, returns (syncGetUser E) w tt (resolve_world E raw w).
Proof.
  unfold syncGetUser.
  destruct (TownPass (host E)) as [[p [[res|e]|]]|];
    try (exists JNull; apply returns_try, returns_ret).
  - destruct (truthy res) eqn:T.
    + exists res. apply returns_try.
      eapply returns_bind; [apply returns_log|].
      eapply returns_bind; [apply returns_emit|].
      eapply returns_bind; [apply returns_lift|].
      rewrite T.
      eapply returns_bind; [apply returns_log|].
      apply resolve_returns.
    + exists JNull. apply returns_try.
      eapply returns_bind; [apply returns_log|].
      eapply returns_bind; [apply returns_emit|].
      eapply returns_bind; [apply returns_lift|].
      rewrite T. apply returns_ret.
  - exists JNull. unfold returns, log.
    cbv [try_catch bind emit lift ret].
    destruct (debug E); eexists; reflexivity.
Qed.

Lemma sendRequests_world w :
  exists raw, world_of (sendRequests E w) = resolve_world E raw w.
Proof.
  destruct (syncGetUser_returns w) as (raw & R).
  exists raw. rewrite <- (returns_world _ _ _ _ R).
  unfold sendRequests.
  do 6 wpass. wpass.
  rewrite log_run. cbn [world_of fst snd].
  pose proof (probes_keep_world E w) as H.
  do 5 (rewrite world_bind in H;
        match type of H with
        | context [result_of (?m ?w0)] =>
            let N := fresh in
            assert (nothrow m) as N by solve_nothrow;
            let a := fresh "a" in
            destruct (N w0) as [a Ha]; rewrite Ha in H; clear N Ha
        end; cbv beta iota in H).
  rewrite H. reflexivity.
Qed.

(** *** The pending timeout *)

Lemma single_timer_ext w0 w :
  timers w0 = timers w -> timerRef w0 = timerRef w ->
  single_timer w -> single_timer w0.
Proof. intros Ht Hr H. unfold single_timer. rewrite Ht, Hr. exact H. Qed.

Lemma single_timer_cleanup w :
  single_timer w -> timers (cleanup_world E w) = [].
Proof.
  intros H. rewrite cleanup_world_timers.
  destruct H as [H | (id & ms & H1 & H2 & H3)].
  - rewrite H. destruct (timerRef w) as [id|]; [destruct (Nat.eqb id 0)|];
      reflexivity.
  - rewrite H2, H1. destruct (Nat.eqb_spec id 0) as [->|_]; [congruence|].
    simpl. rewrite Nat.eqb_refl. reflexivity.
Qed.

Lemma single_timer_resolve raw w :
  single_timer w -> single_timer (resolve_world E raw w).
Proof.
  intros H. unfold resolve_world.
  destruct (truthy (normalize E source_order raw)); [|exact H].
  left. apply single_timer_cleanup. exact H.
Qed.

Lemma single_timer_cleared id w :
  single_timer w ->
  single_timer
    (set_timers (filter (fun t => negb (Nat.eqb (fst t) id)) (timers w)) w).
Proof.
  intros [H | (id' & ms & H1 & H2 & H3)]; unfold single_timer; cbn.
  - left. rewrite H. reflexivity.
  - rewrite H1. simpl. destruct (Nat.eqb id' id); simpl.
    + left. reflexivity.
    + right. exists id', ms. auto.
Qed.

Lemma registerListeners_timer t w :
  single_timer w ->
  timers (world_of (registerListeners E t w)) = [(S (timer_seq w), t)] /\
  timerRef (world_of (registerListeners E t w)) = Some (S (timer_seq w)).
Proof.
  intros H. unfold registerListeners.
  do 6 wpass. rewrite world_bind, new_call_run.
  cbn [result_of world_of fst snd].
  do 6 wpass.
  rewrite world_bind, setTimeout_run.
  cbn [result_of world_of fst snd modify timerRef timers set_timerRef
       set_timers].
  repeat (progress (frame timer_seq;
                    cbn [timer_seq set_listenerRef set_call_seq
                         set_cleanedRef])).
  frame timers. cbn [timers set_listenerRef set_call_seq].
  rewrite (returns_world _ _ _ _ (cleanup_returns _)).
  rewrite single_timer_cleanup.
  - split; reflexivity.
  - apply (single_timer_ext _ w); [| |exact H];
      [ repeat (progress (frame timers; cbn [timers set_cleanedRef]))
      | repeat (progress (frame timerRef; cbn [timerRef set_cleanedRef])) ];
      reflexivity.
Qed.

Lemma loginWithTownPass_timers u :
  preserves timers (loginWithTownPass E u) /\
  preserves timerRef (loginWithTownPass E u).
Proof.
  split; unfold loginWithTownPass, res_json; solve_preserves.
Qed.

(** X6: at most one timeout is pending, and it is the one the hook
    remembers: this holds in the world of a freshly mounted hook and is kept
    by every request, by [reset], by a login, by an expiring timer and by
    every event the host delivers; right after a request the pending timer
    is the request's own. *)
Theorem single_timer_invariant :
  single_timer initial_world /\
  forall w,
    single_timer w ->
    (forall timeout, single_timer (world_of (requestTownPassUser E timeout w))) /\
    (forall t,
        timers (world_of (registerListeners E t w)) = [(S (timer_seq w), t)]) /\
    single_timer (world_of (reset E w)) /\
    (forall u, single_timer (world_of (loginWithTownPass E u w))) /\
    (forall id, single_timer (world_of (fire_timer E id w))) /\
    (forall t arg, single_timer (world_of (deliver E t arg w))).
Proof.
  split; [left; reflexivity|].
  intros w H.
  split; [|split; [|split; [|split; [|split]]]].
  - intros timeout. rewrite request_world.
    match goal with
    | |- context [sendRequests E ?w0] =>
        destruct (sendRequests_world w0) as (raw & ->)
    end.
    apply single_timer_resolve.
    destruct (registerListeners_timer
                (match timeout with Some t => t | None => timeoutMs E end)
                w H) as (Ht & Hr).
    right. eexists _, _. split; [exact Ht|]. split; [exact Hr | discriminate].
  - intros t. apply registerListeners_timer, H.
  - rewrite (returns_world _ _ _ _ (reset_returns w)).
    left. apply (single_timer_cleanup w H).
  - intros u. destruct (loginWithTownPass_timers u) as (Ht & Hr).
    apply (single_timer_ext _ w); [apply Ht | apply Hr | exact H].
  - intros id. rewrite (returns_world _ _ _ _ (fire_timer_returns id w)).
    destruct (existsb _ (timers w)); [|exact H].
    left.
    apply (single_timer_cleanup
             (set_error (Some "TownPass authentication timeout")
                (set_isLoading false
                   (set_timers
                      (filter (fun t => negb (Nat.eqb (fst t) id)) (timers w))
                      w)))).
    apply (single_timer_cleared id w H).
  - intros t arg.
    destruct (deliver_keeps single_timer single_timer_resolve t arg w H)
      as (w' & R & I').
    rewrite (returns_world _ _ _ _ R). exact I'.
Qed.

(** *** The window's message listener *)

Lemma single_message_listener_ext w0 w :
  message_listeners w0 = message_listeners w ->
  listenerRef w0 = listenerRef w ->
  single_message_listener w -> single_message_listener w0.
Proof.
  intros Hm Hr H. unfold single_message_listener. rewrite Hm, Hr. exact H.
Qed.

(** After teardown no listener of the engine is left on the window's
    [message] event. *)
Lemma cleanup_closes_window w :
  single_message_listener w ->
  forall h, In h (message_listeners (cleanup_world E w)) ->
            is_engine h = false.
Proof.
  intros I h Hin. rewrite cleanup_world_message_listeners in Hin.
  destruct (is_engine h) eqn:Eh; [exfalso|reflexivity].
  destruct (listenerRef w) as [h0|] eqn:L.
  - apply filter_In in Hin. destruct Hin as [Hin Hneq].
    specialize (I h Hin Eh). rewrite L in I. injection I as ->.
    rewrite handler_eqb_refl in Hneq. discriminate.
  - specialize (I h Hin Eh). rewrite L in I. discriminate.
Qed.

Lemma single_message_listener_cleanup w :
  single_message_listener w -> single_message_listener (cleanup_world E w).
Proof.
  intros I h Hin Eh.
  rewrite (cleanup_closes_window w I h Hin) in Eh. discriminate.
Qed.

Lemma single_message_listener_resolve raw w :
  single_message_listener w ->
  single_message_listener (resolve_world E raw w).
Proof.
  intros H. unfold resolve_world.
  destruct (truthy (normalize E source_order raw)); [|exact H].
  apply single_message_listener_cleanup. exact H.
Qed.

Lemma in_add_listener h g l :
  In h (add_listener g l) -> In h l \/ h = g.
Proof.
  unfold add_listener. destruct (existsb (handler_eqb g) l); [auto|].
  intros H. apply in_app_or in H. destruct H as [H|[H|[]]]; auto.
Qed.

Lemma registerListeners_message t w :
  single_message_listener w ->
  single_message_listener (world_of (registerListeners E t w)).
Proof.
  intros H h. unfold registerListeners.
  do 6 wpass. rewrite world_bind, new_call_run.
  cbn [result_of world_of fst snd].
  do 2 wpass.
  frame message_listeners. frame listenerRef.
  unfold addEventListener.
  cbn [bind emit modify world_of result_of fst snd message_listeners
       listenerRef set_message_listeners set_listenerRef set_call_seq].
  rewrite (returns_world _ _ _ _ (cleanup_returns _)).
  intros Hin Eh. apply in_add_listener in Hin. destruct Hin as [Hin| ->].
  - eapply cleanup_closes_window in Hin; [rewrite Hin in Eh; discriminate|].
    apply (single_message_listener_ext _ w); [| |exact H];
      [ repeat (progress (frame message_listeners;
                          cbn [message_listeners set_cleanedRef]))
      | repeat (progress (frame listenerRef;
                          cbn [listenerRef set_cleanedRef])) ];
      reflexivity.
  - reflexivity.
Qed.

Lemma loginWithTownPass_listeners u :
  preserves message_listeners (loginWithTownPass E u) /\
  preserves listenerRef (loginWithTownPass E u).
Proof.
  split; unfold loginWithTownPass, res_json; solve_preserves.
Qed.

(** X7: the only listener of the engine on the window's [message] event is
    the one the hook remembers in [listenerRef]: this holds in the world of
    a freshly mounted hook and is kept by every request, by [reset], by a
    login, by an expiring timer and by every event the host delivers. *)
Theorem message_listener_invariant :
  single_message_listener initial_world /\
  forall w,
    single_message_listener w ->
    (forall timeout,
        single_message_listener
          (world_of (requestTownPassUser E timeout w))) /\
    single_message_listener (world_of (reset E w)) /\
    (forall u, single_message_listener (world_of (loginWithTownPass E u w))) /\
    (forall id, single_message_listener (world_of (fire_timer E id w))) /\
    (forall t arg, single_message_listener (world_of (deliver E t arg w))).
Proof.
  split; [intros h []|].
  intros w H.
  split; [|split; [|split; [|split]]].
  - intros timeout. rewrite request_world.
    match goal with
    | |- context [sendRequests E ?w0] =>
        destruct (sendRequests_world w0) as (raw & ->)
    end.
    apply single_message_listener_resolve, registerListeners_message, H.
  - rewrite (returns_world _ _ _ _ (reset_returns w)).
    apply (single_message_listener_cleanup w H).
  - intros u. destruct (loginWithTownPass_listeners u) as (Hm & Hr).
    apply (single_message_listener_ext _ w); [apply Hm | apply Hr | exact H].
  - intros id. rewrite (returns_world _ _ _ _ (fire_timer_returns id w)).
    destruct (existsb _ (timers w)); [|exact H].
    apply (single_message_listener_cleanup
             (set_error (Some "TownPass authentication timeout")
                (set_isLoading false
                   (set_timers
                      (filter (fun t => negb (Nat.eqb (fst t) id)) (timers w))
                      w)))).
    exact H.
  - intros t arg.
    destruct (deliver_keeps single_message_listener
                single_message_listener_resolve t arg w H) as (w' & R & I').
    rewrite (returns_world _ _ _ _ R). exact I'.
Qed.

(** Listeners of the host run no code of the engine. *)
Lemma run_listeners_hosts t hs arg w :
  (forall h, In h hs -> is_engine h = false) ->
  run_listeners E t hs arg w = (Ok tt, w, []).
Proof.
  induction hs as [|h hs IH]; intros H; [reflexivity|].
  cbn [run_listeners]. rewrite bind_gets.
  assert (is_engine h = false) as Eh by (apply H; left; reflexivity).
  destruct h as [c k|i]; [discriminate|].
  unfold bind.
  destruct (is_attached t (HostFn i) w); cbn;
    rewrite IH by (intros h' Hin; apply H; right; exact Hin); reflexivity.
Qed.

(** X8: a request that has been torn down is deaf on the two channels its
    teardown closes: a later window message and a later call of the callback
    reach no code of the engine and change nothing, whatever they carry. *)
Theorem closed_request_is_deaf w arg :
  single_message_listener w ->
  deliver E WindowMessage arg (world_of (cleanup E w))
    = (Ok tt, world_of (cleanup E w), []) /\
  deliver E CallbackSlot arg (world_of (cleanup E w))
    = (Ok tt, world_of (cleanup E w), []).
Proof.
  intros H. rewrite (returns_world _ _ _ _ (cleanup_returns w)).
  split; unfold deliver; rewrite bind_gets.
  - apply run_listeners_hosts. exact (cleanup_closes_window w H).
  - destruct (cleanup_world_closes w) as (_ & _ & -> & _).
    reflexivity.
Qed.

(** *** The session flag *)

Lemma registerListeners_isAuthenticated t :
  preserves isAuthenticated (registerListeners E t).
Proof. solve_preserves. Qed.

Lemma resolve_world_isAuthenticated raw w :
  isAuthenticated (resolve_world E raw w) = isAuthenticated w.
Proof.
  unfold resolve_world.
  destruct (truthy (normalize E source_order raw)); [|reflexivity].
  match goal with
  | |- context [cleanup_world E ?w1] =>
      destruct (cleanup_world_state w1) as (_ & _ & _ & ->)
  end.
  reflexivity.
Qed.

(** X9: receiving an identity never marks the session as authenticated: a
    request, a teardown, an expiring timer and every event the host delivers
    leave [isAuthenticated] as it was. *)
Theorem identity_does_not_authenticate w :
  (forall timeout,
      isAuthenticated (world_of (requestTownPassUser E timeout w))
        = isAuthenticated w) /\
  isAuthenticated (world_of (cleanup E w)) = isAuthenticated w /\
  (forall id,
      isAuthenticated (world_of (fire_timer E id w)) = isAuthenticated w) /\
  (forall t arg,
      isAuthenticated (world_of (deliver E t arg w)) = isAuthenticated w).
Proof.
  split; [|split; [|split]].
  - intros timeout. rewrite request_world.
    match goal with
    | |- context [sendRequests E ?w0] =>
        destruct (sendRequests_world w0) as (raw & ->)
    end.
    rewrite resolve_world_isAuthenticated.
    apply registerListeners_isAuthenticated.
  - rewrite (returns_world _ _ _ _ (cleanup_returns w)).
    apply cleanup_world_state.
  - intros id.
    assert (preserves isAuthenticated (fire_timer E id)) as P
        by (unfold fire_timer; solve_preserves).
    apply P.
  - intros t arg.
    destruct (deliver_keeps
                (fun w' => isAuthenticated w' = isAuthenticated w)
                (fun raw w0 H0 =>
                   eq_trans (resolve_world_isAuthenticated raw w0) H0)
                t arg w eq_refl) as (w' & R & I').
    rewrite (returns_world _ _ _ _ R). exact I'.
Qed.

(** *** Login, reset and the timeout *)

(** What a login does to the world and asks the backend, by its result. *)
Lemma loginWithTownPass_outcome u w :
  world_of (loginWithTownPass E u w) =
    set_error
      (match result_of (loginWithTownPass E u w) with
       | Ok _ => None
       | Throw e => Some (exn_message e)
       end)
      (set_isLoading false
         (set_isAuthenticated
            (match result_of (loginWithTownPass E u w) with
             | Ok _ => true
             | Throw _ => false
             end) w)) /\
  fetches (events_of (loginWithTownPass E u w)) = [login_request E u].
Proof.
  unfold loginWithTownPass, res_json, log, setIsLoading, setError,
    setIsAuthenticated.
  cbv [try_catch bind emit modify ret throw].
  destruct w.
  destruct (debug E);
    (destruct (fetch E (login_request E u)) as [e|r]; [split; reflexivity|]);
    (destruct (res_ok r); cbv [negb];
     [ destruct (res_body r) as [s|];
       [ destruct (JSON_parse E s) |] |]);
    split; reflexivity.
Qed.

(** X10: a login touches the three login states only: afterwards loading
    is off, [isAuthenticated] tells whether the login resolved, the error is
    cleared by a success and is the exception's message after a failure; the
    identity, the listeners, the timer and everything else are as before. *)
Theorem loginWithTownPass_frame u w :
  world_of (loginWithTownPass E u w) =
  set_error
    (match result_of (loginWithTownPass E u w) with
     | Ok _ => None
     | Throw e => Some (exn_message e)
     end)
    (set_isLoading false
       (set_isAuthenticated
          (match result_of (loginWithTownPass E u w) with
           | Ok _ => true
           | Throw _ => false
           end) w)).
Proof. apply loginWithTownPass_outcome. Qed.

(** X11: [reset] returns the hook to its initial visible state and closes
    an open request: no identity, not authenticated, not loading, no error,
    no window message listener or callback of the engine, and the pending
    timeout cancelled, so that its expiry changes nothing. *)
Theorem reset_restores_initial_state w :
  result_of (reset E w) = Ok tt /\
  user (world_of (reset E w)) = JNull /\
  isAuthenticated (world_of (reset E w)) = false /\
  isLoading (world_of (reset E w)) = false /\
  error (world_of (reset E w)) = None /\
  listenerRef (world_of (reset E w)) = None /\
  attached CallbackSlot (world_of (reset E w)) = [] /\
  (forall h, listenerRef w = Some h ->
             is_attached WindowMessage h (world_of (reset E w)) = false) /\
  (forall id, timerRef w = Some id -> id <> 0 ->
              timerRef (world_of (reset E w)) = None /\
              fire_timer E id (world_of (reset E w))
                = (Ok tt, world_of (reset E w), [])).
Proof.
  rewrite (returns_result _ _ _ _ (reset_returns w)).
  rewrite (returns_world _ _ _ _ (reset_returns w)).
  destruct (cleanup_world_closes w) as (C1 & _ & C3 & C4 & C5).
  do 5 (split; [reflexivity|]).
  split; [exact C1|]. split; [exact C3|]. split; [exact C4|].
  intros id H N. split; [apply (C5 id 0%Z H N)|].
  unfold fire_timer. rewrite bind_gets.
  cbn [timers set_error set_isLoading set_isAuthenticated set_user].
  rewrite cleanup_world_timers, H.
  destruct (Nat.eqb_spec id 0) as [->|_]; [congruence|].
  rewrite existsb_cleared. reflexivity.
Qed.

Lemma existsb_cleared_twice id id' (l : list (nat * Z)) :
  existsb (fun t => Nat.eqb (fst t) id)
    (filter (fun t => negb (Nat.eqb (fst t) id'))
       (filter (fun t => negb (Nat.eqb (fst t) id)) l)) = false.
Proof.
  induction l as [|x l IH]; [reflexivity|].
  simpl. destruct (Nat.eqb (fst x) id) eqn:X; simpl; [exact IH|].
  destruct (Nat.eqb (fst x) id'); simpl; [exact IH|].
  rewrite X. exact IH.
Qed.

(** X12: when the timeout of an open request expires the hook reports it
    and closes the request: the error is the timeout message, loading is
    off, the identity and the session flag are untouched, the window message
    listener and the callback are removed; the timer is spent, so a second
    expiry does nothing. *)
Theorem timeout_reports_and_closes w id :
  existsb (fun t => Nat.eqb (fst t) id) (timers w) = true ->
  result_of (fire_timer E id w) = Ok tt /\
  error (world_of (fire_timer E id w))
    = Some "TownPass authentication timeout" /\
  isLoading (world_of (fire_timer E id w)) = false /\
  user (world_of (fire_timer E id w)) = user w /\
  isAuthenticated (world_of (fire_timer E id w)) = isAuthenticated w /\
  listenerRef (world_of (fire_timer E id w)) = None /\
  attached CallbackSlot (world_of (fire_timer E id w)) = [] /\
  (forall ms, ~ In (id, ms) (timers (world_of (fire_timer E id w)))) /\
  fire_timer E id (world_of (fire_timer E id w))
    = (Ok tt, world_of (fire_timer E id w), []).
Proof.
  intros A.
  rewrite (returns_result _ _ _ _ (fire_timer_returns id w)).
  rewrite (returns_world _ _ _ _ (fire_timer_returns id w)).
  rewrite A.
  set (w1 := set_error (Some "TownPass authentication timeout")
               (set_isLoading false
                  (set_timers
                     (filter (fun t => negb (Nat.eqb (fst t) id)) (timers w))
                     w))).
  destruct (cleanup_world_state w1) as (U & L & Er & Au).
  destruct (cleanup_world_closes w1) as (C1 & _ & C3 & _ & _).
  assert (existsb (fun t => Nat.eqb (fst t) id) (timers (cleanup_world E w1))
          = false) as Gone.
  { rewrite cleanup_world_timers. subst w1.
    cbn [timers timerRef set_error set_isLoading set_timers].
    destruct (timerRef w) as [id'|]; [destruct (Nat.eqb id' 0)|];
      try apply existsb_cleared.
    apply existsb_cleared_twice. }
  rewrite U, L, Er, Au.
  do 5 (split; [reflexivity|]).
  split; [exact C1|]. split; [exact C3|]. split.
  - intros ms Hin.
    assert (existsb (fun t => Nat.eqb (fst t) id)
              (timers (cleanup_world E w1)) = true) as Has.
    { apply existsb_exists. exists (id, ms). split; [exact Hin|].
      apply Nat.eqb_refl. }
    rewrite Gone in Has. discriminate.
  - unfold fire_timer. rewrite bind_gets, Gone. reflexivity.
Qed.

(** *** Diagnostics *)

Lemma log_silent msg : debug E = false -> emits not_log (log E msg).
Proof. intros D. unfold log. rewrite D. apply emits_ret. Qed.

(** The statements of the engine with their diagnostics left folded. *)
Ltac statements :=
  unfold requestTownPassUser, registerListeners, sendRequests,
    attachFlutterObject, attachMessageChannel, probeFlutterObject,
    probeMessageChannel, probeWebkit, probeReactNative, probeTownPass,
    probeWindow, syncGetUser, loginWithTownPass, res_json, reset, fire_timer,
    genericListener, customListener, onTownPassUserCallback, flutterHandler,
    channelHandler, handleIncomingRaw, tryParse, JSON_parse_call, onTimeout,
    cleanup, clearTimeout, setTimeout, addEventListener, removeEventListener,
    install_callback, delete_callback, set_onmessage, setUser, setIsLoading,
    setError, setIsAuthenticated, new_call, call_sink.

Ltac silent D :=
  statements;
  repeat first
    [ apply (log_silent _ D)
    | eapply computes_emits; [reflexivity | apply parseIncoming_computes]
    | apply emits_ret | apply emits_throw | apply emits_gets
    | apply emits_modify | apply emits_lift
    | apply emits_emit; reflexivity
    | apply emits_bind | apply emits_try
    | branch
    | match goal with |- forall _, _ => intro end ].

(** X13: with diagnostics off, which is the default, the hook writes
    nothing to the console: no request, login, reset, timeout or handler
    emits a diagnostic line. *)
Theorem silent_without_debug :
  debug E = false ->
  (forall timeout w,
      logs (events_of (requestTownPassUser E timeout w)) = []) /\
  (forall u w, logs (events_of (loginWithTownPass E u w)) = []) /\
  (forall w, logs (events_of (reset E w)) = []) /\
  (forall id w, logs (events_of (fire_timer E id w)) = []) /\
  (forall h arg w, logs (events_of (run_handler E h arg w)) = []).
Proof.
  intros D.
  repeat split; intros; apply emits_no_logs.
  - silent D.
  - silent D.
  - silent D.
  - silent D.
  - destruct h as [c []|i]; simpl; silent D.
Qed.

(** *** The messages of the probes *)

Lemma probe_messages_app l1 l2 :
  probe_messages (l1 ++ l2) = probe_messages l1 ++ probe_messages l2.
Proof. apply flat_map_app. Qed.

Lemma emits_no_probe_messages {A} (m : M A) w :
  emits not_probe m -> probe_messages (events_of (m w)) = [].
Proof.
  intros H. specialize (H w).
  induction (events_of (m w)) as [|e l IH]; [reflexivity|].
  simpl in H. apply andb_true_iff in H. destruct H as [He Hl].
  destruct e; try discriminate; simpl; auto.
Qed.

Lemma log_no_probe_messages msg w :
  probe_messages (events_of (log E msg w)) = [].
Proof. unfold log. destruct (debug E); reflexivity. Qed.

Lemma syncGetUser_probe_messages w :
  probe_messages (events_of (syncGetUser E w)) =
  match TownPass (host E) with
  | Some {| tp_getUser := Some _ |} => [(ProbeGetUser, JUndefined)]
  | _ => []
  end.
Proof.
  unfold syncGetUser.
  destruct (TownPass (host E)) as [[p [g|]]|]; try reflexivity.
  rewrite events_try, probe_messages_app.
  match goal with
  | |- _ ++ probe_messages (match ?r with Ok _ => _ | Throw _ => _ end) = _ =>
      replace (probe_messages
                 (match r with
                  | Ok _ => []
                  | Throw e =>
                      events_of (log E "sync getUser error" (world_of _))
                  end)) with (@nil (Probe * JsVal))
        by (destruct r; [reflexivity | symmetry; apply log_no_probe_messages])
  end.
  rewrite app_nil_r.
  pass. rewrite probe_messages_app, log_no_probe_messages. simpl app.
  pass. rewrite probe_messages_app.
  cbn [events_of emit snd probe_messages flat_map app].
  f_equal. apply emits_no_probe_messages.
  apply emits_bind; [apply emits_lift|]. intros res.
  destruct (truthy res); [|apply emits_ret].
  apply emits_bind; [prims; emits_tac|]. intros _.
  apply emits_bind.
  - apply (emits_weaken _ _ _ quiet_not_probe), handleIncomingRaw_quiet.
  - intros ok. destruct ok; [|apply emits_ret].
    apply (emits_weaken _ _ _ quiet_not_probe), cleanup_quiet.
Qed.

Lemma sendRequests_probe_messages w :
  probe_messages (events_of (sendRequests E w)) = message_plan E.
Proof.
  unfold sendRequests, message_plan.
  pass. rewrite probe_messages_app. f_equal.
  { unfold probeFlutterObject, log, call_sink.
    destruct (flutterObject (host E)) as [[a' r [sink|]]|];
      destruct (debug E); try reflexivity;
      cbn; destruct (sink _); reflexivity. }
  pass. rewrite probe_messages_app. f_equal.
  { unfold probeMessageChannel, log, call_sink.
    destruct (townpass_message_channel (host E)) as [[a' r [sink|]]|];
      destruct (debug E); try reflexivity;
      cbn; destruct (sink _); reflexivity. }
  pass. rewrite probe_messages_app. f_equal.
  { unfold probeWebkit, log, call_sink.
    destruct (webkit_TownPass (host E)) as [sink|]; [|reflexivity].
    destruct (debug E); cbn;
      destruct (sink (JObj [("action", JStr "getUser")])); cbn;
      try reflexivity; destruct (sink (JStr "getUser")); reflexivity. }
  pass. rewrite probe_messages_app. f_equal.
  { unfold probeReactNative, log, call_sink.
    destruct (ReactNativeWebView_postMessage (host E)) as [sink|];
      [|reflexivity].
    destruct (debug E); cbn; destruct (sink _); reflexivity. }
  pass. rewrite probe_messages_app. f_equal.
  { unfold probeTownPass, log, call_sink.
    destruct (TownPass (host E)) as [[[sink|] g]|]; try reflexivity.
    destruct (debug E); cbn; destruct (sink _); reflexivity. }
  pass. rewrite probe_messages_app. f_equal.
  { unfold probeWindow, log. destruct (debug E); reflexivity. }
  pass. rewrite probe_messages_app, syncGetUser_probe_messages,
    log_no_probe_messages.
  rewrite app_nil_r. reflexivity.
Qed.

(** X14: what a request asks the host: every probe carries the message of
    [message_plan], whatever the world and whether or not a host method
    throws: a [userinfo] command on the primary bridge, a [userid] command
    on the secondary channel, [getUser] on the others. *)
Theorem request_sends_message_plan timeout w :
  probe_messages (events_of (requestTownPassUser E timeout w))
    = message_plan E.
Proof.
  rewrite request_events, probe_messages_app.
  rewrite (emits_no_probe_messages _ _ (registerListeners_not_probe E _)).
  apply sendRequests_probe_messages.
Qed.

(** *** The normalizer on what is not an object *)

Lemma first_shape_non_record p :
  is_record p = false -> first_shape E source_order p = JNull.
Proof. destruct p; try discriminate; reflexivity. Qed.

(** X15: an input that is not an object and does not decode to one (a
    number, a boolean, an array, text that is not the JSON of an object) is
    never recognized: [parseIncoming] returns [null]. *)
Theorem parseIncoming_rejects_non_objects raw w :
  is_record (decoded E raw) = false ->
  result_of (parseIncoming E raw w) = Ok JNull.
Proof.
  intros H.
  destruct (parseIncoming_computes E raw w) as (l & -> & _).
  unfold normalize. rewrite (first_shape_non_record _ H).
  destruct (truthy raw); reflexivity.
Qed.

(** *** The handlers of the two structured channels *)

Lemma normalize_truthy raw :
  truthy (normalize E source_order raw) = true -> truthy raw = true.
Proof. unfold normalize. destruct (truthy raw); [reflexivity | discriminate]. Qed.

(** X16: the handler of the primary bridge acts on commands: a [userinfo]
    reply whose data is recognized resolves the request with the normalized
    data; a reply with another command name, or with no data, changes
    nothing; an event whose data is JSON text is handled as the decoded
    command. *)
Theorem flutterHandler_commands w :
  (forall d,
      truthy (normalize E source_order d) = true ->
      let w' :=
        world_of (flutterHandler E
                    (MessageEvent
                       (JObj [("name", JStr "userinfo"); ("data", d)])) w) in
      user w' = normalize E source_order d /\
      isLoading w' = false /\ error w' = None /\ listenerRef w' = None) /\
  (forall name d,
      name <> "userinfo" -> name <> "userid" ->
      world_of (flutterHandler E
                  (MessageEvent (JObj [("name", JStr name); ("data", d)])) w)
        = w) /\
  (forall name d,
      truthy d = false ->
      world_of (flutterHandler E
                  (MessageEvent (JObj [("name", JStr name); ("data", d)])) w)
        = w) /\
  (forall s command,
      JSON_parse E s = Some command ->
      is_string command = false -> nullish command = false ->
      world_of (flutterHandler E (MessageEvent (JStr s)) w)
        = world_of (flutterHandler E (MessageEvent command) w)).
Proof.
  split; [|split; [|split]].
  - intros d T w'. subst w'.
    rewrite (returns_world _ _ _ _ (flutterHandler_returns _ w)).
    unfold flutter_input, flutter_command, MessageEvent. simpl.
    rewrite (normalize_truthy d T). simpl.
    unfold resolve_world. rewrite T.
    match goal with
    | |- context [cleanup_world E ?w1] =>
        destruct (cleanup_world_state w1) as (-> & -> & -> & _);
        rewrite (cleanup_world_listenerRef w1)
    end.
    repeat split.
  - intros name d N1 N2.
    rewrite (returns_world _ _ _ _ (flutterHandler_returns _ w)).
    unfold flutter_input, flutter_command, MessageEvent. simpl.
    destruct (String.eqb_spec name "userinfo") as [->|_]; [congruence|].
    destruct (String.eqb_spec name "userid") as [->|_]; [congruence|].
    reflexivity.
  - intros name d T.
    rewrite (returns_world _ _ _ _ (flutterHandler_returns _ w)).
    unfold flutter_input, flutter_command, MessageEvent. simpl.
    rewrite T, !andb_false_r. reflexivity.
  - intros s command P S N.
    rewrite !(returns_world _ _ _ _ (flutterHandler_returns _ w)).
    unfold flutter_input, flutter_command, MessageEvent. simpl.
    unfold coalesce. simpl. rewrite P, N.
    destruct command; try discriminate; reflexivity.
Qed.

(** X17: the handler of the secondary channel treats an event as a window
    message carrying the event's data: data that is not text is handed to
    the normalizer as it is, JSON text is decoded first, and text that is
    not JSON is ignored. *)
Theorem channelHandler_as_window_message w :
  (forall d,
      is_string d = false -> nullish d = false ->
      world_of (channelHandler E (MessageEvent d) w)
        = world_of (genericListener E (MessageEvent d) w)) /\
  (forall s d,
      JSON_parse E s = Some d -> nullish d = false ->
      world_of (channelHandler E (MessageEvent (JStr s)) w)
        = world_of (genericListener E (MessageEvent d) w)) /\
  (forall s,
      JSON_parse E s = None ->
      world_of (channelHandler E (MessageEvent (JStr s)) w) = w).
Proof.
  split; [|split].
  - intros d S N.
    rewrite (returns_world _ _ _ _ (channelHandler_returns _ w)).
    rewrite (returns_world _ _ _ _ (genericListener_returns _ w)).
    unfold channel_input, MessageEvent. simpl.
    unfold coalesce. rewrite N.
    destruct d; try discriminate; reflexivity.
  - intros s d P N.
    rewrite (returns_world _ _ _ _ (channelHandler_returns _ w)).
    rewrite (returns_world _ _ _ _ (genericListener_returns _ w)).
    unfold channel_input, MessageEvent. simpl.
    unfold coalesce. simpl. rewrite P, N. reflexivity.
  - intros s P.
    rewrite (returns_world _ _ _ _ (channelHandler_returns _ w)).
    unfold channel_input, MessageEvent. simpl.
    unfold coalesce. simpl. rewrite P.
    unfold resolve_world, normalize. simpl. rewrite P.
    destruct (negb (s =? "")); reflexivity.
Qed.

End Behaviour.

(** ** The demo component *)

Lemma fetches_app l1 l2 : fetches (l1 ++ l2) = fetches l1 ++ fetches l2.
Proof. apply flat_map_app. Qed.

(** X18: the demo's login effect logs in exactly when there is an identity,
    no session and nothing loading: then it sends the one request of the
    login to the default endpoint and never lets a rejection escape, and
    otherwise it does nothing.  After a login that failed the condition
    holds again, so the effect is due once more. *)
Theorem demo_login_effect E w :
  result_of (loginEffect E w) = Ok tt /\
  fetches (events_of (loginEffect E w))
    = (if wants_login w then [login_request (demo_env E) (user w)] else []) /\
  req_url (login_request (demo_env E) (user w)) = "/api/auth/townpass" /\
  (wants_login w = false -> world_of (loginEffect E w) = w) /\
  (wants_login w = true ->
   user (world_of (loginEffect E w)) = user w /\
   isLoading (world_of (loginEffect E w)) = false /\
   wants_login (world_of (loginEffect E w))
     = negb (isAuthenticated (world_of (loginEffect E w)))).
Proof.
  unfold loginEffect, wants_login. rewrite !bind_gets.
  destruct (truthy (user w) && negb (isAuthenticated w) && negb (isLoading w))
    eqn:G.
  - destruct (loginWithTownPass_outcome (demo_env E) (user w) w) as (Hw & Hf).
    apply andb_true_iff in G. destruct G as [G _].
    apply andb_true_iff in G. destruct G as [G _].
    destruct (loginWithTownPass (demo_env E) (user w) w) as [[r w1] l1] eqn:L.
    cbn [world_of result_of events_of fst snd] in Hw, Hf.
    cbv [bind try_catch console_line emit ret]. rewrite L.
    destruct r as [data|e];
      cbn [world_of result_of events_of fst snd];
      rewrite ?app_nil_r; cbn [app fetches flat_map];
      fold (fetches l1); rewrite ?fetches_app, Hf, Hw;
      cbn [user isLoading isAuthenticated set_error set_isLoading
           set_isAuthenticated negb andb];
      rewrite ?G; repeat split; try reflexivity; discriminate.
  - repeat split; try reflexivity; discriminate.
Qed.

(** X19: mounting the demo opens one request with a timeout of 3000 ms and
    never throws: the timer is armed during the call, and afterwards it is
    the only pending timer, or none is pending because the host's
    synchronous accessor has resolved the request on the spot. *)
Theorem demo_mount_effect E w :
  single_timer w ->
  result_of (mountEffect E w) = Ok tt /\
  In (EvSetTimeout (S (timer_seq w)) 3000) (events_of (mountEffect E w)) /\
  (timers (world_of (mountEffect E w)) = [(S (timer_seq w), 3000%Z)] \/
   timers (world_of (mountEffect E w)) = []).
Proof.
  intros H. unfold mountEffect.
  rewrite result_bind, events_bind, world_bind.
  cbn [console_line emit result_of world_of events_of fst snd].
  split; [|split].
  - apply unit_result. unfold requestTownPassUser.
    apply nothrow_bind; [apply registerListeners_nothrow|].
    intros _. apply sendRequests_nothrow.
  - cbn [app]. right. rewrite request_events. apply in_or_app. left.
    destruct (registerListeners_attaches (demo_env E) 3000%Z w)
      as (_ & _ & _ & _ & _ & Hin).
    exact Hin.
  - rewrite request_world.
    match goal with
    | |- context [sendRequests ?E0 ?w0] =>
        destruct (sendRequests_world E0 w0) as (raw & ->)
    end.
    destruct (registerListeners_timer (demo_env E) 3000%Z w H) as (Ht & Hr).
    unfold resolve_world.
    destruct (truthy (normalize (demo_env E) source_order raw)).
    + right. apply single_timer_cleanup.
      right. eexists _, _. split; [exact Ht|]. split; [exact Hr|discriminate].
    + left. exact Ht.
Qed.


(** ** Instances *)

(** A window message carrying [u1] resolves the open request with [u1]. *)
Lemma recognized_payload_witness :
  user (world_of (genericListener plain_env (MessageEvent u1) open_world))
    = u1.
Proof.
  apply (recognized_payload_resolves plain_env u1 open_world eq_refl
           _ (or_introl eq_refl)).
Defined.

(** Plain text on the window's [message] event leaves the request open. *)
Lemma unrecognized_payload_witness :
  world_of (genericListener plain_env (MessageEvent (JStr "hello")) open_world)
    = open_world.
Proof.
  apply (unrecognized_payload_ignored plain_env (JStr "hello") open_world
           eq_refl _ (or_introl eq_refl)).
Defined.

(** The open request's timer is timer 1. *)
Lemma cleanup_cancels_timeout_witness :
  fire_timer plain_env 1 (world_of (cleanup plain_env open_world))
    = (Ok tt, world_of (cleanup plain_env open_world), []).
Proof.
  apply (cleanup_cancels_timeout plain_env open_world 1 eq_refl).
  discriminate.
Defined.

Lemma closed_request_witness :
  deliver plain_env WindowMessage (MessageEvent u1)
    (world_of (cleanup plain_env listening_world))
    = (Ok tt, world_of (cleanup plain_env listening_world), []).
Proof.
  apply (closed_request_is_deaf plain_env listening_world (MessageEvent u1)).
  intros h Hin Eh. simpl in Hin.
  destruct Hin as [<-|[<-|[]]]; [reflexivity | discriminate Eh].
Defined.

Lemma timeout_witness :
  error (world_of (fire_timer plain_env 1 open_world))
    = Some "TownPass authentication timeout".
Proof.
  apply (timeout_reports_and_closes plain_env open_world 1 eq_refl).
Defined.

Lemma silent_without_debug_witness :
  logs (events_of (requestTownPassUser plain_env None initial_world)) = [].
Proof.
  apply (silent_without_debug plain_env eq_refl).
Defined.

Lemma parseIncoming_text_witness :
  result_of (parseIncoming plain_env (JStr "hello") initial_world) = Ok JNull.
Proof.
  apply (parseIncoming_rejects_non_objects plain_env (JStr "hello")
           initial_world eq_refl).
Defined.

Lemma demo_mount_witness :
  result_of (mountEffect plain_env initial_world) = Ok tt.
Proof.
  apply (demo_mount_effect plain_env initial_world).
  left. reflexivity.
Defined.

(** A userinfo reply whose data is the JSON text of [ada], on the primary
    bridge. *)
Lemma flutterHandler_userinfo_witness :
  user (world_of (flutterHandler flutter_env
                    (MessageEvent
                       (JObj [("name", JStr "userinfo");
                              ("data", JStr ada_json)]))
                    initial_world)) = ada.
Proof.
  apply (proj1 (flutterHandler_commands flutter_env initial_world)
           (JStr ada_json) eq_refl).
Defined.

(** The JSON text of the userid reply on the secondary channel is handled
    as the reply itself. *)
Lemma channelHandler_text_witness :
  world_of (channelHandler channel_env (MessageEvent (JStr userid_json))
              initial_world)
    = world_of (genericListener channel_env (MessageEvent userid_reply)
                  initial_world).
Proof.
  apply (proj1 (proj2 (channelHandler_as_window_message channel_env
                         initial_world))
           userid_json userid_reply eq_refl eq_refl).
Defined.
